(** * Warmup dashboard: event ingestion, counters and queries

    A shallow embedding of the aggregation layer of the dashboard
    ([lib/db], the two ingestion routes, the two query routes and the two
    clear routes), of what the warmup page derives from the query, and the
    properties its specification states about it.

    Modelling choices, all taken from the source:
    - the Redis database is one record [Redis] with the four key families
      the program uses ([warmup:events], [posts:events],
      [warmup:stats:DATE:ID], [posts:stats:DATE:ID]); every family keeps its
      real key strings, and the families are pairwise disjoint
      ([key_families_disjoint]);
    - JavaScript numbers that count events are integers ([Z]); the
      increments of the program stay exact below 2^53;
    - a request is taken to read the server clock once; the two forms in
      which the source reads it ([Date.now()] and the ISO calendar date)
      are the fields of [Clock];
    - [await] is sequencing: a request runs alone (the specification's
      "no concurrent interleaving"), so the store is passed explicitly;
    - the seven-day expiry of counter records is outside the model: every
      property here concerns operations on one date key. *)

From stdpp Require Import gmap strings list fin_maps sorting.

Local Open Scope Z_scope.

(** ** JavaScript values as the program uses them *)

(** [!x] for a value typed [string | undefined]: only a present, non-empty
    string is truthy. *)
Definition truthy (x : option string) : bool :=
  match x with
  | Some s => negb (String.eqb s "")
  | None => false
  end.

(** [x === 'lit'] for a value typed [string | undefined]. *)
Definition strict_eq (x : option string) (lit : string) : bool :=
  match x with
  | Some s => String.eqb s lit
  | None => false
  end.

(** A template literal [`${x}`] prints an absent value as [undefined]. *)
Definition template (x : option string) : string :=
  match x with
  | Some s => s
  | None => "undefined"
  end.

(** [a || b] on values typed [string | undefined]. *)
Definition or_else (a : option string) (b : string) : string :=
  match a with
  | Some s => if String.eqb s "" then b else s
  | None => b
  end.

(** [arr.includes(x)] for an array of strings. *)
Definition includes (arr : list string) (x : option string) : bool :=
  existsb (strict_eq x) arr.

(** [s.startsWith(p)]. *)
Fixpoint starts_with (p s : string) : bool :=
  match p, s with
  | EmptyString, _ => true
  | String a p', String b s' => Ascii.eqb a b && starts_with p' s'
  | String _ _, EmptyString => false
  end.

(** [s.slice(n)]. *)
Fixpoint string_drop (n : nat) (s : string) : string :=
  match n, s with
  | O, _ => s
  | S n', String _ s' => string_drop n' s'
  | S _, EmptyString => EmptyString
  end.

(** [s.replace(pat, rep)] with a string pattern: the first occurrence of
    [pat] is replaced, and [s] is returned as it is when there is none. *)
Fixpoint replace (pat rep s : string) : string :=
  if starts_with pat s then rep +:+ string_drop (String.length pat) s
  else match s with
       | EmptyString => EmptyString
       | String a s' => String a (replace pat rep s')
       end.

(** A JSON document: the body of a request or of a response. *)
#[local] Unset Elimination Schemes.
Inductive json :=
| JNull
| JBool (b : bool)
| JNum (n : Z)
| JStr (s : string)
| JArr (items : list json)
| JObj (fields : list (string * json)).
#[local] Set Elimination Schemes.

(** [doc[name]] on a parsed document; [None] is [undefined]. *)
Definition json_field (name : string) (doc : json) : option json :=
  match doc with
  | JObj fields => snd <$> List.find (λ kv, String.eqb (fst kv) name) fields
  | _ => None
  end.

(** [JSON.stringify] leaves out a property whose value is [undefined]. *)
Definition optional_field (name : string) (v : option json)
  : list (string * json) :=
  match v with
  | Some j => [(name, j)]
  | None => []
  end.

(** The server clock as one request reads it. *)
Record Clock := mkClock {
  now : Z;          (* Date.now() *)
  today : string    (* new Date().toISOString().split('T')[0] *)
}.

(** ** Data model of lib/db *)

Module ActivityEvent.
Record t := mk {
    timestamp : option Z;
    profileId : option string;
    username : option string;
    action : option string;
    details : option json;
    receivedAt : option Z
  }.
Definition set_receivedAt (v : Z) (e : t) : t :=
    mk (timestamp e) (profileId e) (username e) (action e) (details e) (Some v).
End ActivityEvent.

Module ProfileStats.
Record t := mk {
    likes : Z;
    bookmarks : Z;
    searches : Z;
    explores : Z;
    videos : Z;
    sessions : Z;
    lastActivity : option Z;
    username : option string
  }.
Definition set_lastActivity (v : option Z) (s : t) : t :=
    mk (likes s) (bookmarks s) (searches s) (explores s) (videos s) (sessions s)
       v (username s).
Definition set_username (v : option string) (s : t) : t :=
    mk (likes s) (bookmarks s) (searches s) (explores s) (videos s) (sessions s)
       (lastActivity s) v.
Definition incr_likes (s : t) : t :=
    mk (likes s + 1) (bookmarks s) (searches s) (explores s) (videos s)
       (sessions s) (lastActivity s) (username s).
Definition incr_bookmarks (s : t) : t :=
    mk (likes s) (bookmarks s + 1) (searches s) (explores s) (videos s)
       (sessions s) (lastActivity s) (username s).
Definition incr_searches (s : t) : t :=
    mk (likes s) (bookmarks s) (searches s + 1) (explores s) (videos s)
       (sessions s) (lastActivity s) (username s).
Definition incr_explores (s : t) : t :=
    mk (likes s) (bookmarks s) (searches s) (explores s + 1) (videos s)
       (sessions s) (lastActivity s) (username s).
Definition incr_videos (s : t) : t :=
    mk (likes s) (bookmarks s) (searches s) (explores s) (videos s + 1)
       (sessions s) (lastActivity s) (username s).
Definition incr_sessions (s : t) : t :=
    mk (likes s) (bookmarks s) (searches s) (explores s) (videos s)
       (sessions s + 1) (lastActivity s) (username s).
  (** The record [addEvent] synthesizes when the key is absent. *)
Definition zero : t := mk 0 0 0 0 0 0 None None.
End ProfileStats.

Module PostEvent.
Record t := mk {
    timestamp : option Z;
    personaId : option string;
    handle : option string;
    action : option string;
    details : option json;
    receivedAt : option Z
  }.
Definition set_receivedAt (v : Z) (e : t) : t :=
    mk (timestamp e) (personaId e) (handle e) (action e) (details e) (Some v).
End PostEvent.

Module PostStats.
Record t := mk {
    scheduled : Z;
    posted : Z;
    failed : Z;
    lastActivity : option Z;
    handle : option string
  }.
Definition set_lastActivity (v : option Z) (s : t) : t :=
    mk (scheduled s) (posted s) (failed s) v (handle s).
Definition set_handle (v : option string) (s : t) : t :=
    mk (scheduled s) (posted s) (failed s) (lastActivity s) v.
Definition set_scheduled (v : Z) (s : t) : t :=
    mk v (posted s) (failed s) (lastActivity s) (handle s).
Definition incr_scheduled (s : t) : t := set_scheduled (scheduled s + 1) s.
Definition decr_scheduled (s : t) : t := set_scheduled (scheduled s - 1) s.
Definition incr_posted (s : t) : t :=
    mk (scheduled s) (posted s + 1) (failed s) (lastActivity s) (handle s).
Definition incr_failed (s : t) : t :=
    mk (scheduled s) (posted s) (failed s + 1) (lastActivity s) (handle s).
Definition zero : t := mk 0 0 0 None None.
End PostStats.

Definition EVENTS_KEY : string := "warmup:events".
Definition STATS_PREFIX : string := "warmup:stats:".
Definition POST_EVENTS_KEY : string := "posts:events".
Definition POST_STATS_PREFIX : string := "posts:stats:".
Definition MAX_EVENTS : Z := 500.
Definition MAX_POST_EVENTS : Z := 200.

(** ** The Redis commands the program issues *)

Section RedisCommands.
Context {V : Type}.

  (** An index of LRANGE and LTRIM: a negative one counts from the end. *)
Definition from_end (len i : Z) : Z := if i <? 0 then len + i else i.

  (** The elements at positions [start..stop], both inclusive, out of range
      positions clamped. *)
Definition range (start stop : Z) (l : list V) : list V :=
    let len := Z.of_nat (length l) in
    let s := Z.max 0 (from_end len start) in
    let e := Z.min (len - 1) (from_end len stop) in
    if e <? s then [] else take (Z.to_nat (e - s + 1)) (drop (Z.to_nat s) l).

Definition lpush (key : string) (x : V) (m : gmap string (list V))
    : gmap string (list V) :=
    <[key := x :: default [] (m !! key)]> m.

  (** A list that becomes empty is removed, as Redis does. *)
Definition ltrim (key : string) (start stop : Z) (m : gmap string (list V))
    : gmap string (list V) :=
    match m !! key with
    | None => m
    | Some l =>
        match range start stop l with
        | [] => delete key m
        | l' => <[key := l']> m
        end
    end.

Definition lrange (key : string) (start stop : Z) (m : gmap string (list V))
    : list V :=
    range start stop (default [] (m !! key)).

  (** [redis.keys(`${prefix}*`)]: the prefixes of the program are made of a
      constant and an ISO date and hold no glob character. The order of the
      reply is the store's own. *)
Definition keys (prefix : string) (m : gmap string V) : list string :=
    filter (λ k, starts_with prefix k = true) (map_to_list m).*1.

  (** [redis.del(...ks)]. *)
Definition del (ks : list string) (m : gmap string V) : gmap string V :=
    foldr delete m ks.
End RedisCommands.

Record Redis := mkRedis {
  warmup_events : gmap string (list ActivityEvent.t);
  warmup_stats : gmap string ProfileStats.t;
  post_events : gmap string (list PostEvent.t);
  post_stats : gmap string PostStats.t
}.

Definition with_warmup_events (f : gmap string (list ActivityEvent.t) →
                                   gmap string (list ActivityEvent.t))
    (db : Redis) : Redis :=
  mkRedis (f (warmup_events db)) (warmup_stats db) (post_events db) (post_stats db).
Definition with_warmup_stats (f : gmap string ProfileStats.t →
                                  gmap string ProfileStats.t)
    (db : Redis) : Redis :=
  mkRedis (warmup_events db) (f (warmup_stats db)) (post_events db) (post_stats db).
Definition with_post_events (f : gmap string (list PostEvent.t) →
                                 gmap string (list PostEvent.t))
    (db : Redis) : Redis :=
  mkRedis (warmup_events db) (warmup_stats db) (f (post_events db)) (post_stats db).
Definition with_post_stats (f : gmap string PostStats.t → gmap string PostStats.t)
    (db : Redis) : Redis :=
  mkRedis (warmup_events db) (warmup_stats db) (post_events db) (f (post_stats db)).

Definition empty_redis : Redis := mkRedis ∅ ∅ ∅ ∅.

(** ** lib/db: the warmup stream *)

(** The [switch (event.action)] of [addEvent]. *)
Definition apply_action (action : option string) (stats : ProfileStats.t)
  : ProfileStats.t :=
  if strict_eq action "like" then ProfileStats.incr_likes stats
  else if strict_eq action "bookmark" then ProfileStats.incr_bookmarks stats
  else if strict_eq action "search" then ProfileStats.incr_searches stats
  else if strict_eq action "explore" then ProfileStats.incr_explores stats
  else if strict_eq action "video_watch" then ProfileStats.incr_videos stats
  else if strict_eq action "session_start" then ProfileStats.incr_sessions stats
  else stats.

(** Lines 62-75 of [addEvent]: what one event does to a counter record. *)
Definition update_stats (event : ActivityEvent.t) (stats : ProfileStats.t)
  : ProfileStats.t :=
  let stats := ProfileStats.set_lastActivity (ActivityEvent.timestamp event) stats in
  let stats :=
    if truthy (ActivityEvent.username event)
    then ProfileStats.set_username (ActivityEvent.username event) stats
    else stats in
  apply_action (ActivityEvent.action event) stats.

Definition statsKey (date : string) (id : option string) : string :=
  STATS_PREFIX +:+ date +:+ ":" +:+ template id.

Definition addEvent (c : Clock) (event : ActivityEvent.t) (db : Redis) : Redis :=
  let event := ActivityEvent.set_receivedAt (now c) event in
  let db := with_warmup_events (lpush EVENTS_KEY event) db in
  let db := with_warmup_events (ltrim EVENTS_KEY 0 (MAX_EVENTS - 1)) db in
  let key := statsKey (today c) (ActivityEvent.profileId event) in
  let existing := warmup_stats db !! key in
  let stats := default ProfileStats.zero existing in
  let stats := update_stats event stats in
  with_warmup_stats (insert key stats) db.

Definition getRecentEvents (limit : Z) (db : Redis) : list ActivityEvent.t :=
  lrange EVENTS_KEY 0 (limit - 1) (warmup_events db).

(** ** Plain JavaScript objects used as dictionaries

    [Record<string, V>]: the own enumerable properties in the order
    [Object.entries] and [JSON.stringify] visit them, array-index keys
    first by ascending number, then the other keys by insertion. *)

Definition digit (a : Ascii.ascii) : option N :=
  let n := Ascii.N_of_ascii a in
  if ((48 <=? n) && (n <=? 57))%N then Some (n - 48)%N else None.

Fixpoint parse_digits (acc : N) (s : string) : option N :=
  match s with
  | EmptyString => Some acc
  | String a s' =>
      match digit a with
      | Some d => parse_digits (10 * acc + d)%N s'
      | None => None
      end
  end.

(** A key is an array index when it is the canonical decimal form of an
    integer between 0 and 2^32 - 2. *)
Definition array_index (k : string) : option N :=
  match k with
  | EmptyString => None
  | String a rest =>
      if Ascii.eqb a (Ascii.ascii_of_nat 48) && negb (String.eqb rest "") then None
      else match parse_digits 0 k with
           | Some n => if (n <? 2 ^ 32 - 1)%N then Some n else None
           | None => None
           end
  end.

Section JsObject.
Context {V : Type}.

Definition js_has (k : string) (o : list (string * V)) : bool :=
    existsb (λ kv, String.eqb (fst kv) k) o.

Definition js_replace (k : string) (v : V) (o : list (string * V))
    : list (string * V) :=
    map (λ kv, if String.eqb (fst kv) k then (k, v) else kv) o.

Fixpoint js_put_index (n : N) (k : string) (v : V) (o : list (string * V))
    : list (string * V) :=
    match o with
    | [] => [(k, v)]
    | kv :: o' =>
        match array_index (fst kv) with
        | Some n' =>
            if (n' <? n)%N then kv :: js_put_index n k v o' else (k, v) :: o
        | None => (k, v) :: o
        end
    end.

  (** [o[k] = v] on an object literal, [v] an object. The key [__proto__]
      names the prototype and adds no own property. *)
Definition js_set (k : string) (v : V) (o : list (string * V))
    : list (string * V) :=
    if String.eqb k "__proto__" then o
    else if js_has k o then js_replace k v o
    else match array_index k with
         | Some n => js_put_index n k v o
         | None => o ++ [(k, v)]
         end.
End JsObject.

(** ** lib/db: queries of the warmup stream *)

Definition getStatsForDate (date : string) (db : Redis)
  : list (string * ProfileStats.t) :=
  let prefix := STATS_PREFIX +:+ date +:+ ":" in
  let ks := keys prefix (warmup_stats db) in
  foldl (λ stats key,
           let profileId := replace prefix "" key in
           match warmup_stats db !! key with
           | Some profileStats => js_set profileId profileStats stats
           | None => stats
           end) [] ks.

Definition getTodayStats (c : Clock) (db : Redis)
  : list (string * ProfileStats.t) :=
  getStatsForDate (today c) db.

(** ** lib/db: the post stream *)

(** The [switch (event.action)] of [addPostEvent]. *)
Definition apply_post_action (action : option string) (stats : PostStats.t)
  : PostStats.t :=
  if strict_eq action "post_scheduled" then PostStats.incr_scheduled stats
  else if strict_eq action "post_published" then
    let stats := PostStats.incr_posted stats in
    if 0 <? PostStats.scheduled stats then PostStats.decr_scheduled stats
    else stats
  else if strict_eq action "post_failed" then
    let stats := PostStats.incr_failed stats in
    if 0 <? PostStats.scheduled stats then PostStats.decr_scheduled stats
    else stats
  else stats.

(** Lines 166-183 of [addPostEvent]. *)
Definition update_post_stats (event : PostEvent.t) (stats : PostStats.t)
  : PostStats.t :=
  let stats := PostStats.set_lastActivity (PostEvent.timestamp event) stats in
  let stats :=
    if truthy (PostEvent.handle event)
    then PostStats.set_handle (PostEvent.handle event) stats
    else stats in
  apply_post_action (PostEvent.action event) stats.

Definition postStatsKey (date : string) (id : option string) : string :=
  POST_STATS_PREFIX +:+ date +:+ ":" +:+ template id.

Definition addPostEvent (c : Clock) (event : PostEvent.t) (db : Redis) : Redis :=
  let event := PostEvent.set_receivedAt (now c) event in
  let db := with_post_events (lpush POST_EVENTS_KEY event) db in
  let db := with_post_events (ltrim POST_EVENTS_KEY 0 (MAX_POST_EVENTS - 1)) db in
  let key := postStatsKey (today c) (PostEvent.personaId event) in
  let existing := post_stats db !! key in
  let stats := default PostStats.zero existing in
  let stats := update_post_stats event stats in
  with_post_stats (insert key stats) db.

Definition getRecentPostEvents (limit : Z) (db : Redis) : list PostEvent.t :=
  lrange POST_EVENTS_KEY 0 (limit - 1) (post_events db).

Definition getPostStatsForDate (date : string) (db : Redis)
  : list (string * PostStats.t) :=
  let prefix := POST_STATS_PREFIX +:+ date +:+ ":" in
  let ks := keys prefix (post_stats db) in
  foldl (λ stats key,
           let personaId := replace prefix "" key in
           match post_stats db !! key with
           | Some postStats => js_set personaId postStats stats
           | None => stats
           end) [] ks.

Definition getTodayPostStats (c : Clock) (db : Redis)
  : list (string * PostStats.t) :=
  getPostStatsForDate (today c) db.

(** ** Responses

    [NextResponse.json(body, { status })]; the status is 200 when none is
    given. The cross-origin headers are constant and left out. *)
Record Response := mkResponse {
  status : Z;
  body : json
}.

Definition ok (b : json) : Response := mkResponse 200 b.

(** ** POST /api/log: ingestion of the warmup stream

    The [catch] branch answers a body that is not JSON or a store that
    fails; the model has neither. *)
Module ApiLog.
Definition POST (c : Clock) (event : ActivityEvent.t) (db : Redis)
  : Response * Redis :=
  if negb (truthy (ActivityEvent.profileId event))
     || negb (truthy (ActivityEvent.action event))
  then (mkResponse 400 (JObj [("error", JStr "Missing profileId or action")]), db)
  else
    let db := addEvent c event db in
    (ok (JObj [("success", JBool true)]), db).
End ApiLog.

(** ** POST /api/posts/log: ingestion of the post stream *)
Module ApiPostsLog.
Definition validActions : list string :=
  ["post_scheduled"; "post_published"; "post_failed"].

Definition POST (c : Clock) (event : PostEvent.t) (db : Redis)
  : Response * Redis :=
  if negb (truthy (PostEvent.personaId event))
     || negb (truthy (PostEvent.action event))
  then (mkResponse 400 (JObj [("error", JStr "Missing personaId or action")]), db)
  else if negb (includes validActions (PostEvent.action event))
  then (mkResponse 400 (JObj [("error", JStr "Invalid action type")]), db)
  else
    let db := addPostEvent c event db in
    (ok (JObj [("success", JBool true)]), db).
End ApiPostsLog.

(** ** JSON forms of the stored records, as [JSON.stringify] prints them

    A member that is [None] is [undefined] in the program (a [timestamp]
    the client did not send, the [lastActivity] copied from it) and is left
    out of the text; the members are written in the order of the
    interface. *)

Definition ActivityEvent_json (e : ActivityEvent.t) : json :=
  JObj (optional_field "timestamp" (JNum <$> ActivityEvent.timestamp e)
        ++ optional_field "profileId" (JStr <$> ActivityEvent.profileId e)
        ++ optional_field "username" (JStr <$> ActivityEvent.username e)
        ++ optional_field "action" (JStr <$> ActivityEvent.action e)
        ++ optional_field "details" (ActivityEvent.details e)
        ++ optional_field "receivedAt" (JNum <$> ActivityEvent.receivedAt e)).

Definition ProfileStats_json (s : ProfileStats.t) : json :=
  JObj ([("likes", JNum (ProfileStats.likes s));
         ("bookmarks", JNum (ProfileStats.bookmarks s));
         ("searches", JNum (ProfileStats.searches s));
         ("explores", JNum (ProfileStats.explores s));
         ("videos", JNum (ProfileStats.videos s));
         ("sessions", JNum (ProfileStats.sessions s))]
        ++ optional_field "lastActivity" (JNum <$> ProfileStats.lastActivity s)
        ++ optional_field "username" (JStr <$> ProfileStats.username s)).

Definition PostEvent_json (e : PostEvent.t) : json :=
  JObj (optional_field "timestamp" (JNum <$> PostEvent.timestamp e)
        ++ optional_field "personaId" (JStr <$> PostEvent.personaId e)
        ++ optional_field "handle" (JStr <$> PostEvent.handle e)
        ++ optional_field "action" (JStr <$> PostEvent.action e)
        ++ optional_field "details" (PostEvent.details e)
        ++ optional_field "receivedAt" (JNum <$> PostEvent.receivedAt e)).

(** ** GET /api/stats: the today query of the warmup stream *)
Module DashboardData.
Record t := mk {
  date : string;
  profiles : list (string * ProfileStats.t);
  recentEvents : list ActivityEvent.t
}.
Definition to_json (d : t) : json :=
  JObj [("date", JStr (date d));
        ("profiles", JObj (map (λ kv, (fst kv, ProfileStats_json (snd kv)))
                               (profiles d)));
        ("recentEvents", JArr (map ActivityEvent_json (recentEvents d)))].
End DashboardData.

Module ApiStats.
Definition data (c : Clock) (db : Redis) : DashboardData.t :=
  let stats := getTodayStats c db in
  let events := getRecentEvents 50 db in
  DashboardData.mk (today c) stats events.

Definition GET (c : Clock) (db : Redis) : Response :=
  ok (DashboardData.to_json (data c db)).
End ApiStats.

(** ** POST /api/clear and POST /api/posts/clear *)
Definition cleared_json (statsKeys : list string) : json :=
  JObj [("success", JBool true);
        ("cleared", JObj [("statsKeys", JNum (Z.of_nat (length statsKeys)));
                          ("events", JBool true)])].

Module ApiClear.
Definition POST (c : Clock) (db : Redis) : Response * Redis :=
  let statsPattern := "warmup:stats:" +:+ today c +:+ ":" in
  let statsKeys := keys statsPattern (warmup_stats db) in
  let db :=
    if 0 <? Z.of_nat (length statsKeys)
    then with_warmup_stats (del statsKeys) db
    else db in
  let db := with_warmup_events (del ["warmup:events"]) db in
  (ok (cleared_json statsKeys), db).
End ApiClear.

Module ApiPostsClear.
Definition POST (c : Clock) (db : Redis) : Response * Redis :=
  let statsPattern := "posts:stats:" +:+ today c +:+ ":" in
  let statsKeys := keys statsPattern (post_stats db) in
  let db :=
    if 0 <? Z.of_nat (length statsKeys)
    then with_post_stats (del statsKeys) db
    else db in
  let db := with_post_events (del ["posts:events"]) db in
  (ok (cleared_json statsKeys), db).
End ApiPostsClear.

(** ** [Array.prototype.sort] with a comparator

    The sort of the language is stable, and the comparators of the program
    are differences of integers, hence consistent: every stable sort gives
    the same array, here by insertion. [cmp a b <= 0] keeps [a] first. *)
Section JsSort.
Context {A : Type} (cmp : A → A → Z).

Fixpoint sort_insert (x : A) (l : list A) : list A :=
  match l with
  | [] => [x]
  | y :: l' => if cmp x y <=? 0 then x :: l else y :: sort_insert x l'
  end.

Definition js_sort (l : list A) : list A := foldr sort_insert [] l.
End JsSort.

(** ** GET /api/posts: the today query of the post stream *)
Module PersonaPostStats.
Record t := mk {
  personaId : string;
  handle : option string;
  displayName : option string;
  emoji : option string;
  scheduled : Z;
  posted : Z;
  failed : Z;
  lastActivity : option Z
}.
Definition to_json (p : t) : json :=
  JObj ([("personaId", JStr (personaId p))]
        ++ optional_field "handle" (JStr <$> handle p)
        ++ optional_field "displayName" (JStr <$> displayName p)
        ++ optional_field "emoji" (JStr <$> emoji p)
        ++ [("scheduled", JNum (scheduled p));
            ("posted", JNum (posted p));
            ("failed", JNum (failed p))]
        ++ optional_field "lastActivity" (JNum <$> lastActivity p)).
End PersonaPostStats.

Module Totals.
Record t := mk {
  scheduled : Z;
  posted : Z;
  failed : Z
}.
Definition to_json (x : t) : json :=
  JObj [("scheduled", JNum (scheduled x));
        ("posted", JNum (posted x));
        ("failed", JNum (failed x))].
End Totals.

Module PostsData.
Record t := mk {
  date : string;
  totals : Totals.t;
  personas : list PersonaPostStats.t;
  recentEvents : list PostEvent.t
}.
Definition to_json (d : t) : json :=
  JObj [("date", JStr (date d));
        ("totals", Totals.to_json (totals d));
        ("personas", JArr (map PersonaPostStats.to_json (personas d)));
        ("recentEvents", JArr (map PostEvent_json (recentEvents d)))].
End PostsData.

Module ApiPosts.
Record Meta := mkMeta {
  handle : option string;
  displayName : option string;
  emoji : option string
}.

(** The table of the route; the [emoji] texts are those of its file,
    character for character. *)
Definition PERSONA_META : list (string * Meta) :=
  [("green", mkMeta (Some "@PassikiAI") (Some "Passiki") (Some "ðŸŸ¢"));
   ("orange", mkMeta (Some "@Builtforyou28") (Some "Built For You") (Some "ðŸŸ "));
   ("purple", mkMeta (Some "@quit9to5life") (Some "Quit 9-5 Life") (Some "ðŸŸ£"));
   ("blue", mkMeta (Some "@automateprofit") (Some "Automate Profit") (Some "ðŸ”µ"));
   ("red", mkMeta (Some "@sidehustlecashh") (Some "Side Hustle Cash") (Some "ðŸ”´"));
   ("yellow", mkMeta (Some "@wifilifestyle") (Some "Laptop Lifestyle") (Some "ðŸŸ¡"));
   ("cyan", mkMeta (Some "@ecomtactics_") (Some "Ecom Tactics") (Some "ðŸ©µ"));
   ("pink", mkMeta (Some "@startingfrom0_") (Some "Starting From Zero") (Some "ðŸ’—"));
   ("black", mkMeta (Some "@aitoolstack_") (Some "AI Tool Stack") (Some "â¬›"));
   ("white", mkMeta (Some "@_wealthsystems_") (Some "Wealth Systems") (Some "â¬œ"))].

(** The members an object literal inherits: a lookup by one of these names
    finds a truthy value with none of the three fields. *)
Definition inherited_names : list string :=
  ["constructor"; "__defineGetter__"; "__defineSetter__"; "hasOwnProperty";
   "__lookupGetter__"; "__lookupSetter__"; "isPrototypeOf";
   "propertyIsEnumerable"; "toString"; "valueOf"; "__proto__";
   "toLocaleString"].

(** [PERSONA_META[personaId]]. *)
Definition lookup_meta (personaId : string) : option Meta :=
  match List.find (λ kv, String.eqb (fst kv) personaId) PERSONA_META with
  | Some kv => Some (snd kv)
  | None =>
      if existsb (String.eqb personaId) inherited_names
      then Some (mkMeta None None None)
      else None
  end.

(** [a || b] where both sides may be [undefined]. *)
Definition first_truthy (a b : option string) : option string :=
  if truthy a then a else b.

(** One turn of the loop over [Object.entries(statsMap)]: the entry pushed
    on [personas]. *)
Definition persona_entry (personaId : string) (stats : PostStats.t)
  : PersonaPostStats.t :=
  let meta :=
    default (mkMeta (Some (or_else (PostStats.handle stats) ("@" +:+ personaId)))
                    (Some personaId)
                    (Some "â€¢"))
            (lookup_meta personaId) in
  PersonaPostStats.mk personaId
    (first_truthy (PostStats.handle stats) (handle meta))
    (displayName meta)
    (emoji meta)
    (PostStats.scheduled stats)
    (PostStats.posted stats)
    (PostStats.failed stats)
    (PostStats.lastActivity stats).

Definition add_totals (totals : Totals.t) (stats : PostStats.t) : Totals.t :=
  Totals.mk (Totals.scheduled totals + PostStats.scheduled stats)
            (Totals.posted totals + PostStats.posted stats)
            (Totals.failed totals + PostStats.failed stats).

(** The comparator of [personas.sort]. *)
Definition by_activity (a b : PersonaPostStats.t) : Z :=
  (PersonaPostStats.posted b + PersonaPostStats.scheduled b
   + PersonaPostStats.failed b)
  - (PersonaPostStats.posted a + PersonaPostStats.scheduled a
     + PersonaPostStats.failed a).

Definition data (c : Clock) (db : Redis) : PostsData.t :=
  let today := today c in
  let statsMap := getTodayPostStats c db in
  let recentEvents := getRecentPostEvents 50 db in
  let '(totals, personas) :=
    foldl (λ acc entry,
             (add_totals (fst acc) (snd entry),
              snd acc ++ [persona_entry (fst entry) (snd entry)]))
          (Totals.mk 0 0 0, []) statsMap in
  let personas := js_sort by_activity personas in
  PostsData.mk today totals personas recentEvents.

Definition GET (c : Clock) (db : Redis) : Response :=
  ok (PostsData.to_json (data c db)).
End ApiPosts.

(** ** Requests that change the store, and their sequential service *)
Inductive Request :=
| LogEvent (c : Clock) (event : ActivityEvent.t)
| LogPostEvent (c : Clock) (event : PostEvent.t)
| ClearWarmup (c : Clock)
| ClearPosts (c : Clock).

Definition handle (r : Request) (db : Redis) : Response * Redis :=
  match r with
  | LogEvent c event => ApiLog.POST c event db
  | LogPostEvent c event => ApiPostsLog.POST c event db
  | ClearWarmup c => ApiClear.POST c db
  | ClearPosts c => ApiPostsClear.POST c db
  end.

Definition serve (rs : list Request) (db : Redis) : Redis :=
  foldl (λ db r, snd (handle r db)) db rs.

(** The two event logs, newest entry first, and the counter records. *)
Definition warmup_log (db : Redis) : list ActivityEvent.t :=
  default [] (warmup_events db !! EVENTS_KEY).
Definition post_log (db : Redis) : list PostEvent.t :=
  default [] (post_events db !! POST_EVENTS_KEY).
Definition profile_record (date id : string) (db : Redis) : option ProfileStats.t :=
  warmup_stats db !! statsKey date (Some id).
Definition post_record (date id : string) (db : Redis) : option PostStats.t :=
  post_stats db !! postStatsKey date (Some id).

(** What the ingestion routes check. *)
Definition valid_event (e : ActivityEvent.t) : bool :=
  truthy (ActivityEvent.profileId e) && truthy (ActivityEvent.action e).
Definition valid_post_event (e : PostEvent.t) : bool :=
  truthy (PostEvent.personaId e) && truthy (PostEvent.action e)
  && includes ApiPostsLog.validActions (PostEvent.action e).

(** Submitting a sequence of events, each with its own clock reading. *)
Definition submit_all (evs : list (Clock * ActivityEvent.t)) (db : Redis) : Redis :=
  foldl (λ db ce, snd (ApiLog.POST (fst ce) (snd ce) db)) db evs.
Definition submit_all_posts (evs : list (Clock * PostEvent.t)) (db : Redis) : Redis :=
  foldl (λ db ce, snd (ApiPostsLog.POST (fst ce) (snd ce) db)) db evs.

(** ** app/page.tsx: what the page derives from the warmup query

    The page keeps the parsed document of GET /api/stats in [data], [null]
    until the first answer. *)
Module Page.
Record Totals := mkTotals {
  likes : Z;
  bookmarks : Z;
  sessions : Z;
  videos : Z;
  searches : Z;
  explores : Z
}.

Definition getTotals (data : option DashboardData.t) : Totals :=
  match data with
  | None => mkTotals 0 0 0 0 0 0
  | Some d =>
      foldl (λ acc p,
               mkTotals (likes acc + ProfileStats.likes p)
                        (bookmarks acc + ProfileStats.bookmarks p)
                        (sessions acc + ProfileStats.sessions p)
                        (videos acc + ProfileStats.videos p)
                        (searches acc + ProfileStats.searches p)
                        (explores acc + ProfileStats.explores p))
            (mkTotals 0 0 0 0 0 0)
            (map snd (DashboardData.profiles d))
  end.

(** The comparator of the profile list:
    [(b[1].lastActivity || 0) - (a[1].lastActivity || 0)]. *)
Definition by_lastActivity (a b : string * ProfileStats.t) : Z :=
  default 0 (ProfileStats.lastActivity (snd b))
  - default 0 (ProfileStats.lastActivity (snd a)).

(** The entries behind the profile cards, in the order they are drawn. *)
Definition profile_cards (data : option DashboardData.t)
  : list (string * ProfileStats.t) :=
  match data with
  | None => []
  | Some d => js_sort by_lastActivity (DashboardData.profiles d)
  end.
End Page.

(** * Vocabulary of the properties *)

(** Replaying a sequence of events on a counter record, oldest first. *)
Definition replay (r0 : ProfileStats.t) (evs : list (Clock * ActivityEvent.t))
  : ProfileStats.t :=
  foldl (λ s ce, update_stats (snd ce) s) r0 evs.

(** The six counters of a record, in the order of the interface. *)
Definition counters (s : ProfileStats.t) : list Z :=
  [ProfileStats.likes s; ProfileStats.bookmarks s; ProfileStats.searches s;
   ProfileStats.explores s; ProfileStats.videos s; ProfileStats.sessions s].

(** The action to delta table of the warmup stream in the words of the
    specification, as a vector over [counters]: like adds 1 to likes,
    bookmark to bookmarks, search to searches, explore to explores,
    video_watch to videos, session_start to sessions, and any other action
    adds nothing. *)
Definition delta (a : option string) : list Z :=
  [if strict_eq a "like" then 1 else 0;
   if strict_eq a "bookmark" then 1 else 0;
   if strict_eq a "search" then 1 else 0;
   if strict_eq a "explore" then 1 else 0;
   if strict_eq a "video_watch" then 1 else 0;
   if strict_eq a "session_start" then 1 else 0].

(** The events of a sequence that reach one counter record: same date, same
    profile, and accepted by the ingestion route. *)
Definition for_record (d pid : string) (ce : Clock * ActivityEvent.t) : Prop :=
  today (fst ce) = d
  ∧ ActivityEvent.profileId (snd ce) = Some pid
  ∧ truthy (ActivityEvent.action (snd ce)) = true.

(** Replaying a sequence of post events on a counter record, oldest first. *)
Definition replay_posts (r0 : PostStats.t) (evs : list (Clock * PostEvent.t))
  : PostStats.t :=
  foldl (λ s ce, update_post_stats (snd ce) s) r0 evs.

(** The three counters of a post record: scheduled, posted, failed. *)
Definition post_counters (s : PostStats.t) : Z * Z * Z :=
  (PostStats.scheduled s, PostStats.posted s, PostStats.failed s).

(** The action to delta table of the post stream in the words of the
    specification: a terminal event takes one off [scheduled], floored at
    zero. *)
Definition post_delta (a : option string) (cs : Z * Z * Z) : Z * Z * Z :=
  let '(scheduled, posted, failed) := cs in
  if strict_eq a "post_scheduled" then (scheduled + 1, posted, failed)
  else if strict_eq a "post_published" then (Z.max 0 (scheduled - 1), posted + 1, failed)
  else if strict_eq a "post_failed" then (Z.max 0 (scheduled - 1), posted, failed + 1)
  else (scheduled, posted, failed).

(** The post events of a sequence that reach one counter record: same date,
    same persona, and an action the ingestion route accepts. *)
Definition for_post_record (d pid : string) (ce : Clock * PostEvent.t) : Prop :=
  today (fst ce) = d
  ∧ PostEvent.personaId (snd ce) = Some pid
  ∧ includes ApiPostsLog.validActions (PostEvent.action (snd ce)) = true.

(** Every post record of the store has a [scheduled] count that is not
    negative. *)
Definition scheduled_nonneg (db : Redis) : Prop :=
  map_Forall (λ _ r, 0 ≤ PostStats.scheduled r) (post_stats db).

(** A field of the request body that is absent or the empty string. *)
Definition missing_or_empty (x : option string) : Prop := x = None ∨ x = Some "".

(** The six actions [addEvent] counts. *)
Definition counted_actions : list string :=
  ["like"; "bookmark"; "search"; "explore"; "video_watch"; "session_start"].

(** [a] may stand before [b]: its key is at least the key of [b]. *)
Definition before {A : Type} (key : A → Z) (a b : A) : Prop := key b ≤ key a.

(** The total activity of a persona of the post query, and of a profile
    record of the warmup query: the sum of all its counters. *)
Definition activity (p : PersonaPostStats.t) : Z :=
  PersonaPostStats.posted p + PersonaPostStats.scheduled p + PersonaPostStats.failed p.
Definition profile_activity (s : ProfileStats.t) : Z :=
  ProfileStats.likes s + ProfileStats.bookmarks s + ProfileStats.searches s
  + ProfileStats.explores s + ProfileStats.videos s + ProfileStats.sessions s.

(** A sequence of totals in descending order. *)
Definition descending (l : list Z) : Prop := StronglySorted (λ a b, b ≤ a) l.

(** The entities with a record under a key prefix: the id of an entity is
    what follows the prefix in its key. *)
Definition records_under {V : Type} (prefix : string) (m : gmap string V)
  : list (string * V) :=
  (λ kv, (string_drop (String.length prefix) kv.1, kv.2))
    <$> filter (λ kv, starts_with prefix kv.1 = true) (map_to_list m).

(** The loop of [getStatsForDate] and of [getPostStatsForDate]. *)
Definition enumerate {V : Type} (prefix : string) (m : gmap string V)
  : list (string * V) :=
  foldl (λ stats key,
           match m !! key with
           | Some v => js_set (replace prefix "" key) v stats
           | None => stats
           end) [] (keys prefix m).

(** The entities the today query of a stream lists: those with a record for
    the date whose id is not [__proto__]. *)
Definition listed_profiles (d : string) (db : Redis) : list (string * ProfileStats.t) :=
  filter (λ kv, kv.1 ≠ "__proto__")
         (records_under (STATS_PREFIX +:+ d +:+ ":") (warmup_stats db)).
Definition listed_personas (d : string) (db : Redis) : list (string * PostStats.t) :=
  filter (λ kv, kv.1 ≠ "__proto__")
         (records_under (POST_STATS_PREFIX +:+ d +:+ ":") (post_stats db)).

(** The sum of one counter over a list of records. *)
Definition sum_of {V : Type} (f : V → Z) (l : list (string * V)) : Z :=
  foldr (λ kv acc, f kv.2 + acc) 0 l.

(** The events of a sequence the warmup route accepts, stamped with the
    reading of the clock of their request. *)
Definition stamped (evs : list (Clock * ActivityEvent.t)) : list ActivityEvent.t :=
  (λ ce, ActivityEvent.set_receivedAt (now ce.1) ce.2) <$> evs.

(** The last non-empty display name a sequence of events carries, [prev]
    when none does. *)
Definition last_username (prev : option string)
    (evs : list (Clock * ActivityEvent.t)) : option string :=
  foldl (λ u ce, if truthy (ActivityEvent.username ce.2)
                 then ActivityEvent.username ce.2 else u) prev evs.
Definition last_handle (prev : option string)
    (evs : list (Clock * PostEvent.t)) : option string :=
  foldl (λ u ce, if truthy (PostEvent.handle ce.2)
                 then PostEvent.handle ce.2 else u) prev evs.

(** How many events of a sequence carry the action [a]. *)
Definition count_posts (a : string) (evs : list (Clock * PostEvent.t)) : Z :=
  Z.of_nat (length (filter (λ ce, strict_eq (PostEvent.action ce.2) a = true) evs)).

(** The arrival time of a stored event. *)
Definition arrival (e : ActivityEvent.t) : Z := default 0 (ActivityEvent.receivedAt e).

(** A log whose entries arrived no later than [t], newest first. *)
Definition newest_first (t : Z) (log : list ActivityEvent.t) : Prop :=
  Forall (λ e, arrival e ≤ t) log ∧ descending (arrival <$> log).

(** The clock readings of a sequence of requests never go back, from [t]
    on. *)
Fixpoint clock_monotone (t : Z) (evs : list (Clock * ActivityEvent.t)) : Prop :=
  match evs with
  | [] => True
  | ce :: evs' => t ≤ now ce.1 ∧ clock_monotone (now ce.1) evs'
  end.

(** The sum of a list of integers. *)
Definition Zsum (l : list Z) : Z := foldr Z.add 0 l.

(** The time of the last activity of a profile as the page compares it:
    [lastActivity || 0]. *)
Definition last_seen (kv : string * ProfileStats.t) : Z :=
  default 0 (ProfileStats.lastActivity kv.2).

(** The post events of a sequence, stamped with the reading of the clock of
    their request. *)
Definition stamped_posts (evs : list (Clock * PostEvent.t)) : list PostEvent.t :=
  (λ ce, PostEvent.set_receivedAt (now ce.1) ce.2) <$> evs.

(** ** Scenarios *)

(** A reading of the clock on 2 November 2026, and events of that day. *)
Definition scenario_clock : Clock := mkClock 1793577600000 "2026-11-02".
Definition scenario_event (id action : string) : ActivityEvent.t :=
  ActivityEvent.mk (Some 1793577599000) (Some id) None (Some action) None None.

Definition post_event (id action : string) : PostEvent.t :=
  PostEvent.mk (Some 1793577599000) (Some id) None (Some action) None None.

(** A burst of requests on an empty store. *)
Definition burst : list Request :=
  [LogEvent (mkClock 1 "2026-11-02")
     (ActivityEvent.mk (Some 1) (Some "green") None (Some "like") None None);
   LogEvent (mkClock 2 "2026-11-02")
     (ActivityEvent.mk (Some 2) (Some "green") None (Some "scroll") None None);
   LogPostEvent (mkClock 3 "2026-11-02")
     (PostEvent.mk (Some 3) (Some "blue") None (Some "post_scheduled") None None);
   ClearPosts (mkClock 4 "2026-11-02");
   LogEvent (mkClock 5 "2026-11-02")
     (ActivityEvent.mk (Some 5) (Some "red") None (Some "bookmark") None None)].

(** Two profiles, "1" with one like and "2" with two. *)
Definition two_profiles : Redis :=
  submit_all [(scenario_clock, scenario_event "2" "like");
              (scenario_clock, scenario_event "2" "like");
              (scenario_clock, scenario_event "1" "like")] empty_redis.

(** * Properties *)

(** ** The bounded log *)

Section RangeFacts.
Context {V : Type}.
Implicit Types (l : list V) (m : gmap string (list V)).

Lemma range_from_head (n : Z) l :
  1 ≤ n → range 0 (n - 1) l = take (Z.to_nat n) l.
Proof.
  intros Hn. unfold range, from_end.
  assert (Hs : (0 <? 0) = false) by reflexivity. rewrite Hs.
  assert (Hn' : (n - 1 <? 0) = false) by lia. rewrite Hn'.
  rewrite Z.max_id.
  destruct (Z.ltb_spec (Z.min (Z.of_nat (length l) - 1) (n - 1)) 0) as [Hlt | Hge].
  - assert (length l = 0%nat) as Hlen by lia.
    destruct l; [by rewrite take_nil | discriminate].
  - change (Z.to_nat 0) with 0%nat. rewrite drop_0.
    destruct (Z.le_gt_cases (Z.of_nat (length l)) n) as [Hle | Hgt].
    + rewrite !take_ge; [done | lia | lia].
    + f_equal. lia.
Qed.

Lemma range_empty (start stop : Z) : range start stop ([] : list V) = [].
Proof.
  unfold range. case_match; [done |]. by rewrite drop_nil, take_nil.
Qed.

Lemma ltrim_lpush (key : string) (x : V) (n : Z) m :
  1 ≤ n →
  ltrim key 0 (n - 1) (lpush key x m)
  = <[key := take (Z.to_nat n) (x :: default [] (m !! key))]> m.
Proof.
  intros Hn. unfold ltrim, lpush. rewrite lookup_insert_eq.
  rewrite range_from_head by done.
  destruct (Z.to_nat n) as [| k] eqn:Hk; [lia |].
  cbn [take]. by rewrite insert_insert_eq.
Qed.

Lemma lrange_absent (key : string) (start stop : Z) m :
  m !! key = None → lrange key start stop m = [].
Proof. intros H. unfold lrange. rewrite H. apply range_empty. Qed.
End RangeFacts.

(** [addEvent] in one step: the stamped event goes to the head of the log,
    the log is cut to [MAX_EVENTS], the record of the key is updated. *)
Lemma addEvent_unfold (c : Clock) (e : ActivityEvent.t) (db : Redis) :
  addEvent c e db
  = mkRedis
      (<[EVENTS_KEY := take 500 (ActivityEvent.set_receivedAt (now c) e
                                   :: warmup_log db)]> (warmup_events db))
      (<[statsKey (today c) (ActivityEvent.profileId e) :=
           update_stats e (default ProfileStats.zero
             (warmup_stats db !! statsKey (today c) (ActivityEvent.profileId e)))]>
         (warmup_stats db))
      (post_events db) (post_stats db).
Proof.
  unfold addEvent, with_warmup_events, with_warmup_stats, warmup_log.
  cbn [warmup_events warmup_stats post_events post_stats].
  change (MAX_EVENTS - 1) with (500 - 1).
  rewrite ltrim_lpush by lia. reflexivity.
Qed.

Lemma addPostEvent_unfold (c : Clock) (e : PostEvent.t) (db : Redis) :
  addPostEvent c e db
  = mkRedis
      (warmup_events db) (warmup_stats db)
      (<[POST_EVENTS_KEY := take 200 (PostEvent.set_receivedAt (now c) e
                                        :: post_log db)]> (post_events db))
      (<[postStatsKey (today c) (PostEvent.personaId e) :=
           update_post_stats e (default PostStats.zero
             (post_stats db !! postStatsKey (today c) (PostEvent.personaId e)))]>
         (post_stats db)).
Proof.
  unfold addPostEvent, with_post_events, with_post_stats, post_log.
  cbn [warmup_events warmup_stats post_events post_stats].
  change (MAX_POST_EVENTS - 1) with (200 - 1).
  rewrite ltrim_lpush by lia. reflexivity.
Qed.

Lemma warmup_log_addEvent (c : Clock) (e : ActivityEvent.t) (db : Redis) :
  warmup_log (addEvent c e db)
  = take (Z.to_nat MAX_EVENTS)
         (ActivityEvent.set_receivedAt (now c) e :: warmup_log db).
Proof.
  rewrite addEvent_unfold. unfold warmup_log at 1. cbn [warmup_events].
  by rewrite lookup_insert_eq.
Qed.

Lemma post_log_addPostEvent (c : Clock) (e : PostEvent.t) (db : Redis) :
  post_log (addPostEvent c e db)
  = take (Z.to_nat MAX_POST_EVENTS)
         (PostEvent.set_receivedAt (now c) e :: post_log db).
Proof.
  rewrite addPostEvent_unfold. unfold post_log at 1. cbn [post_events].
  by rewrite lookup_insert_eq.
Qed.

Lemma post_log_addEvent (c : Clock) (e : ActivityEvent.t) (db : Redis) :
  post_log (addEvent c e db) = post_log db.
Proof. by rewrite addEvent_unfold. Qed.

Lemma warmup_log_addPostEvent (c : Clock) (e : PostEvent.t) (db : Redis) :
  warmup_log (addPostEvent c e db) = warmup_log db.
Proof. by rewrite addPostEvent_unfold. Qed.

(** The ingestion routes either reject and leave the store alone, or run
    the store operation and acknowledge. *)
Lemma ApiLog_POST_cases (c : Clock) (e : ActivityEvent.t) (db : Redis) :
  ApiLog.POST c e db
  = if valid_event e
    then (ok (JObj [("success", JBool true)]), addEvent c e db)
    else (mkResponse 400 (JObj [("error", JStr "Missing profileId or action")]), db).
Proof.
  unfold ApiLog.POST, valid_event.
  by destruct (truthy (ActivityEvent.profileId e)), (truthy (ActivityEvent.action e)).
Qed.

Lemma ApiPostsLog_POST_cases (c : Clock) (e : PostEvent.t) (db : Redis) :
  ApiPostsLog.POST c e db
  = if valid_post_event e
    then (ok (JObj [("success", JBool true)]), addPostEvent c e db)
    else (mkResponse 400
            (JObj [("error",
                    JStr (if truthy (PostEvent.personaId e)
                             && truthy (PostEvent.action e)
                          then "Invalid action type"
                          else "Missing personaId or action"))]), db).
Proof.
  unfold ApiPostsLog.POST, valid_post_event.
  by destruct (truthy (PostEvent.personaId e)), (truthy (PostEvent.action e)),
       (includes ApiPostsLog.validActions (PostEvent.action e)).
Qed.

Lemma warmup_log_clear (c : Clock) (db : Redis) :
  warmup_log (snd (ApiClear.POST c db)) = [].
Proof.
  unfold ApiClear.POST, warmup_log, with_warmup_events, with_warmup_stats, del.
  cbn [snd foldr]. case_match; cbn [warmup_events]; by rewrite lookup_delete_eq.
Qed.

Lemma post_log_clear (c : Clock) (db : Redis) :
  post_log (snd (ApiPostsClear.POST c db)) = [].
Proof.
  unfold ApiPostsClear.POST, post_log, with_post_events, with_post_stats, del.
  cbn [snd foldr]. case_match; cbn [post_events]; by rewrite lookup_delete_eq.
Qed.

Lemma post_log_clear_warmup (c : Clock) (db : Redis) :
  post_log (snd (ApiClear.POST c db)) = post_log db.
Proof. unfold ApiClear.POST. cbn [snd]. by case_match. Qed.

Lemma warmup_log_clear_posts (c : Clock) (db : Redis) :
  warmup_log (snd (ApiPostsClear.POST c db)) = warmup_log db.
Proof. unfold ApiPostsClear.POST. cbn [snd]. by case_match. Qed.

Lemma handle_keeps_caps (r : Request) (db : Redis) :
  Z.of_nat (length (warmup_log db)) ≤ MAX_EVENTS →
  Z.of_nat (length (post_log db)) ≤ MAX_POST_EVENTS →
  Z.of_nat (length (warmup_log (snd (handle r db)))) ≤ MAX_EVENTS
  ∧ Z.of_nat (length (post_log (snd (handle r db)))) ≤ MAX_POST_EVENTS.
Proof.
  intros Hw Hp. destruct r as [c e | c e | c | c]; cbn [handle].
  - rewrite ApiLog_POST_cases. destruct (valid_event e); cbn [snd]; [| done].
    rewrite warmup_log_addEvent, post_log_addEvent, length_take.
    unfold MAX_EVENTS in *. lia.
  - rewrite ApiPostsLog_POST_cases. destruct (valid_post_event e); cbn [snd]; [| done].
    rewrite post_log_addPostEvent, warmup_log_addPostEvent, length_take.
    unfold MAX_POST_EVENTS in *. lia.
  - rewrite warmup_log_clear, post_log_clear_warmup. cbn. unfold MAX_EVENTS. lia.
  - rewrite post_log_clear, warmup_log_clear_posts. cbn. unfold MAX_POST_EVENTS. lia.
Qed.

(** C3. After every append the log of a stream is the new entry followed by
    the previous log, cut to the cap of the stream (500 for warmup, 200 for
    posts) by dropping the oldest entries; so its length is at most the cap
    whatever the log was before, and no sequence of requests served from a
    state within the caps ever leaves them. *)
Theorem log_never_exceeds_cap :
  (∀ (c : Clock) (e : ActivityEvent.t) (db : Redis),
     warmup_log (addEvent c e db)
     = take (Z.to_nat MAX_EVENTS)
            (ActivityEvent.set_receivedAt (now c) e :: warmup_log db)
     ∧ Z.of_nat (length (warmup_log (addEvent c e db))) ≤ 500)
  ∧ (∀ (c : Clock) (e : PostEvent.t) (db : Redis),
       post_log (addPostEvent c e db)
       = take (Z.to_nat MAX_POST_EVENTS)
              (PostEvent.set_receivedAt (now c) e :: post_log db)
       ∧ Z.of_nat (length (post_log (addPostEvent c e db))) ≤ 200)
  ∧ (∀ (rs : list Request) (db : Redis),
       Z.of_nat (length (warmup_log db)) ≤ 500 →
       Z.of_nat (length (post_log db)) ≤ 200 →
       Z.of_nat (length (warmup_log (serve rs db))) ≤ 500
       ∧ Z.of_nat (length (post_log (serve rs db))) ≤ 200).
Proof.
  split; [| split].
  - intros c e db. rewrite warmup_log_addEvent. split; [done |].
    rewrite length_take. unfold MAX_EVENTS. lia.
  - intros c e db. rewrite post_log_addPostEvent. split; [done |].
    rewrite length_take. unfold MAX_POST_EVENTS. lia.
  - intros rs. induction rs as [| r rs IH]; intros db Hw Hp; [done |].
    unfold serve in *. cbn [foldl].
    destruct (handle_keeps_caps r db Hw Hp) as [Hw' Hp'].
    by apply IH.
Qed.

Lemma log_never_exceeds_cap_witness :
  Z.of_nat (length (warmup_log empty_redis)) ≤ 500
  ∧ Z.of_nat (length (post_log empty_redis)) ≤ 200
  ∧ Z.of_nat (length (warmup_log (serve burst empty_redis))) ≤ 500
  ∧ Z.of_nat (length (post_log (serve burst empty_redis))) ≤ 200.
Proof.
  assert (H1 : Z.of_nat (length (warmup_log empty_redis)) ≤ 500)
    by (vm_compute; discriminate).
  assert (H2 : Z.of_nat (length (post_log empty_redis)) ≤ 200)
    by (vm_compute; discriminate).
  split; [exact H1 |]. split; [exact H2 |].
  exact (proj2 (proj2 log_never_exceeds_cap) burst empty_redis H1 H2).
Defined.

(** ** Counters of the warmup stream *)

(** Case analysis on the action of an event against the literals of a
    [switch]. *)
Ltac by_action a :=
  destruct a as [a |]; unfold strict_eq;
  [ repeat match goal with
      | |- context [String.eqb a ?lit] =>
          destruct (String.eqb_spec a lit) as [-> | ?]
      end
  | ];
  cbv -[Z.add Z.sub Z.ltb]; repeat (f_equal; try lia).

Lemma counters_update_stats (e : ActivityEvent.t) (s : ProfileStats.t) :
  counters (update_stats e s)
  = zip_with Z.add (counters s) (delta (ActivityEvent.action e)).
Proof.
  unfold update_stats, apply_action, delta.
  destruct e as [ts pid un a dt ra]. cbn [ActivityEvent.action ActivityEvent.timestamp
    ActivityEvent.username].
  destruct s as [l b se ex v ss la u].
  destruct (truthy un); by_action a.
Qed.

Lemma lastActivity_update_stats (e : ActivityEvent.t) (s : ProfileStats.t) :
  ProfileStats.lastActivity (update_stats e s) = ActivityEvent.timestamp e.
Proof.
  unfold update_stats, apply_action.
  destruct e as [ts pid un a dt ra]. cbn [ActivityEvent.action ActivityEvent.timestamp
    ActivityEvent.username].
  destruct s as [l b se ex v ss la u].
  destruct (truthy un); by_action a.
Qed.

Lemma truthy_Some (s : string) : s ≠ "" → truthy (Some s) = true.
Proof. intros H. unfold truthy. by apply String.eqb_neq in H as ->. Qed.

Lemma profile_record_addEvent (c : Clock) (e : ActivityEvent.t) (db : Redis)
    (d pid : string) :
  today c = d → ActivityEvent.profileId e = Some pid →
  profile_record d pid (addEvent c e db)
  = Some (update_stats e (default ProfileStats.zero (profile_record d pid db))).
Proof.
  intros <- Hp. rewrite addEvent_unfold. unfold profile_record.
  cbn [warmup_stats]. rewrite Hp. by rewrite lookup_insert_eq.
Qed.

Lemma submit_all_replay (d pid : string) (evs : list (Clock * ActivityEvent.t)) :
  pid ≠ "" → Forall (for_record d pid) evs →
  ∀ db : Redis,
    profile_record d pid (submit_all evs db)
    = match evs with
      | [] => profile_record d pid db
      | _ => Some (replay (default ProfileStats.zero (profile_record d pid db)) evs)
      end.
Proof.
  intros Hpid Hall. induction Hall as [| [c e] evs (Hd & Hp & Ha) Hall IH];
    intros db; [done |].
  cbn [fst snd] in *. unfold submit_all, replay in *. cbn [foldl fst snd].
  rewrite ApiLog_POST_cases. unfold valid_event.
  rewrite Hp, (truthy_Some _ Hpid), Ha. cbn [andb snd].
  rewrite IH, (profile_record_addEvent c e db d pid Hd Hp).
  by destruct evs.
Qed.

Lemma counters_replay (r0 : ProfileStats.t) (evs : list (Clock * ActivityEvent.t)) :
  counters (replay r0 evs)
  = foldl (λ cs ce, zip_with Z.add cs (delta (ActivityEvent.action (snd ce))))
          (counters r0) evs.
Proof.
  revert r0. induction evs as [| ce evs IH]; intros r0; [done |].
  unfold replay in *. cbn [foldl]. by rewrite IH, counters_update_stats.
Qed.

Lemma lastActivity_replay (r0 : ProfileStats.t) (evs : list (Clock * ActivityEvent.t))
    (ce : Clock * ActivityEvent.t) :
  last evs = Some ce →
  ProfileStats.lastActivity (replay r0 evs) = ActivityEvent.timestamp (snd ce).
Proof.
  revert r0. induction evs as [| x evs IH]; intros r0 Hl; [done |].
  unfold replay in *. cbn [foldl]. destruct evs as [| y evs].
  - injection Hl as <-. cbn. apply lastActivity_update_stats.
  - by apply IH.
Qed.

Lemma counters_unchanged (e : ActivityEvent.t) (s : ProfileStats.t) :
  In (ActivityEvent.action e)
     [Some "session_end"; Some "error"; Some "scroll"; Some "profile_visit"] →
  counters (update_stats e s) = counters s.
Proof.
  intros Hin. rewrite counters_update_stats.
  destruct s as [l b se ex v ss la u].
  destruct Hin as [<- | [<- | [<- | [<- | []]]]];
    cbv -[Z.add]; repeat (f_equal; try lia).
Qed.

(** C1. A sequence of accepted warmup events for one date and one profile,
    served one after the other, leaves at the key of that profile the record
    obtained from the previous one (the zeroed record when there was none)
    by applying the events in order; its six counters are the previous ones
    plus the deltas of the table (like, bookmark, search, explore,
    video_watch and session_start add 1 to likes, bookmarks, searches,
    explores, videos and sessions), and [lastActivity] is the timestamp of
    the last event. The actions session_end, error, scroll and profile_visit
    change no counter and still set [lastActivity]. Three likes and a
    bookmark for "green" give likes 3, bookmarks 1 and zero elsewhere. *)
Theorem warmup_counters_follow_table :
  (∀ (d pid : string) (evs : list (Clock * ActivityEvent.t)) (db : Redis),
     pid ≠ "" → evs ≠ [] → Forall (for_record d pid) evs →
     ∃ r : ProfileStats.t,
       profile_record d pid (submit_all evs db) = Some r
       ∧ r = replay (default ProfileStats.zero (profile_record d pid db)) evs
       ∧ counters r
         = foldl (λ cs ce, zip_with Z.add cs (delta (ActivityEvent.action (snd ce))))
                 (counters (default ProfileStats.zero (profile_record d pid db))) evs
       ∧ ∀ ce, last evs = Some ce →
               ProfileStats.lastActivity r = ActivityEvent.timestamp (snd ce))
  ∧ (∀ (e : ActivityEvent.t) (s : ProfileStats.t),
       counters (update_stats e s)
       = zip_with Z.add (counters s) (delta (ActivityEvent.action e))
       ∧ ProfileStats.lastActivity (update_stats e s) = ActivityEvent.timestamp e)
  ∧ (∀ (e : ActivityEvent.t) (s : ProfileStats.t),
       In (ActivityEvent.action e)
          [Some "session_end"; Some "error"; Some "scroll"; Some "profile_visit"] →
       counters (update_stats e s) = counters s
       ∧ ProfileStats.lastActivity (update_stats e s) = ActivityEvent.timestamp e)
  ∧ profile_record "2026-11-02" "green"
      (submit_all [(scenario_clock, scenario_event "green" "like");
                   (scenario_clock, scenario_event "green" "like");
                   (scenario_clock, scenario_event "green" "like");
                   (scenario_clock, scenario_event "green" "bookmark")]
                  empty_redis)
    = Some (ProfileStats.mk 3 1 0 0 0 0 (Some 1793577599000) None).
Proof.
  split; [| split; [| split]].
  - intros d pid evs db Hpid Hne Hall.
    rewrite (submit_all_replay d pid evs) by done. destruct evs; [done |].
    eexists; split; [reflexivity |]. split; [reflexivity |].
    split; [apply counters_replay |]. intros ce. apply lastActivity_replay.
  - intros e s. split; [apply counters_update_stats | apply lastActivity_update_stats].
  - intros e s Hin. split; [by apply counters_unchanged | apply lastActivity_update_stats].
  - vm_compute. reflexivity.
Qed.

(** The scenario of the specification, obtained from the general statement. *)
Lemma warmup_counters_follow_table_witness :
  "green" ≠ ""
  ∧ [(scenario_clock, scenario_event "green" "like");
     (scenario_clock, scenario_event "green" "bookmark")] ≠ []
  ∧ Forall (for_record "2026-11-02" "green")
      [(scenario_clock, scenario_event "green" "like");
       (scenario_clock, scenario_event "green" "bookmark")]
  ∧ ∃ r : ProfileStats.t,
      profile_record "2026-11-02" "green"
        (submit_all [(scenario_clock, scenario_event "green" "like");
                     (scenario_clock, scenario_event "green" "bookmark")]
                    empty_redis) = Some r
      ∧ counters r = [1; 1; 0; 0; 0; 0].
Proof.
  assert (H1 : "green" ≠ "") by discriminate.
  assert (H2 : [(scenario_clock, scenario_event "green" "like");
                (scenario_clock, scenario_event "green" "bookmark")] ≠ [])
    by discriminate.
  assert (H3 : Forall (for_record "2026-11-02" "green")
                 [(scenario_clock, scenario_event "green" "like");
                  (scenario_clock, scenario_event "green" "bookmark")])
    by (repeat constructor).
  split; [exact H1 |]. split; [exact H2 |]. split; [exact H3 |].
  destruct (proj1 warmup_counters_follow_table "2026-11-02" "green" _ empty_redis
              H1 H2 H3) as (r & Hr & _ & Hc & _).
  exists r. split; [exact Hr |]. rewrite Hc. reflexivity.
Defined.

(** ** Counters of the post stream *)

Lemma post_counters_update (e : PostEvent.t) (s : PostStats.t) :
  0 ≤ PostStats.scheduled s →
  post_counters (update_post_stats e s) = post_delta (PostEvent.action e) (post_counters s).
Proof.
  unfold update_post_stats, apply_post_action, post_delta, post_counters.
  destruct e as [ts pid h a dt ra]. cbn [PostEvent.action PostEvent.timestamp
    PostEvent.handle].
  destruct s as [sc po fa la u]. cbn [PostStats.scheduled]. intros Hsc.
  assert (Hfloor : (if 0 <? sc then sc - 1 else sc) = Z.max 0 (sc - 1))
    by (destruct (Z.ltb_spec 0 sc); lia).
  rewrite <- Hfloor.
  destruct (truthy h);
    cbn [PostStats.scheduled PostStats.incr_posted PostStats.incr_failed
         PostStats.set_lastActivity PostStats.set_handle];
    destruct (0 <? sc); by_action a.
Qed.

Lemma scheduled_update_nonneg (e : PostEvent.t) (s : PostStats.t) :
  0 ≤ PostStats.scheduled s → 0 ≤ PostStats.scheduled (update_post_stats e s).
Proof.
  intros Hsc. pose proof (post_counters_update e s Hsc) as H.
  unfold post_counters, post_delta in H.
  destruct (strict_eq (PostEvent.action e) "post_scheduled"),
    (strict_eq (PostEvent.action e) "post_published"),
    (strict_eq (PostEvent.action e) "post_failed"); injection H as -> _ _; lia.
Qed.

Lemma lastActivity_update_post (e : PostEvent.t) (s : PostStats.t) :
  PostStats.lastActivity (update_post_stats e s) = PostEvent.timestamp e.
Proof.
  unfold update_post_stats, apply_post_action.
  destruct e as [ts pid h a dt ra]. cbn [PostEvent.action PostEvent.timestamp
    PostEvent.handle].
  destruct s as [sc po fa la u].
  destruct (truthy h);
    cbn [PostStats.scheduled PostStats.incr_posted PostStats.incr_failed
         PostStats.set_lastActivity PostStats.set_handle];
    destruct (0 <? sc); by_action a.
Qed.

Lemma post_record_addPostEvent (c : Clock) (e : PostEvent.t) (db : Redis)
    (d pid : string) :
  today c = d → PostEvent.personaId e = Some pid →
  post_record d pid (addPostEvent c e db)
  = Some (update_post_stats e (default PostStats.zero (post_record d pid db))).
Proof.
  intros <- Hp. rewrite addPostEvent_unfold. unfold post_record.
  cbn [post_stats]. rewrite Hp. by rewrite lookup_insert_eq.
Qed.

Lemma includes_truthy (a : option string) :
  includes ApiPostsLog.validActions a = true → truthy a = true.
Proof.
  destruct a as [a |]; [| done]. cbn. intros H.
  destruct (String.eqb_spec a "") as [-> |]; [discriminate | done].
Qed.

Lemma submit_all_posts_replay (d pid : string) (evs : list (Clock * PostEvent.t)) :
  pid ≠ "" → Forall (for_post_record d pid) evs →
  ∀ db : Redis,
    post_record d pid (submit_all_posts evs db)
    = match evs with
      | [] => post_record d pid db
      | _ => Some (replay_posts (default PostStats.zero (post_record d pid db)) evs)
      end.
Proof.
  intros Hpid Hall. induction Hall as [| [c e] evs (Hd & Hp & Ha) Hall IH];
    intros db; [done |].
  cbn [fst snd] in *. unfold submit_all_posts, replay_posts in *. cbn [foldl fst snd].
  rewrite ApiPostsLog_POST_cases. unfold valid_post_event.
  rewrite Hp, (truthy_Some _ Hpid), Ha, (includes_truthy _ Ha). cbn [andb snd].
  rewrite IH, (post_record_addPostEvent c e db d pid Hd Hp).
  by destruct evs.
Qed.

Lemma post_counters_replay (r0 : PostStats.t) (evs : list (Clock * PostEvent.t)) :
  0 ≤ PostStats.scheduled r0 →
  post_counters (replay_posts r0 evs)
  = foldl (λ cs ce, post_delta (PostEvent.action (snd ce)) cs) (post_counters r0) evs
  ∧ 0 ≤ PostStats.scheduled (replay_posts r0 evs).
Proof.
  revert r0. induction evs as [| ce evs IH]; intros r0 H0; [done |].
  unfold replay_posts in *. cbn [foldl].
  rewrite <- post_counters_update by done.
  apply IH. by apply scheduled_update_nonneg.
Qed.

Lemma del_Forall {V : Type} (P : string → V → Prop) (ks : list string)
    (m : gmap string V) :
  map_Forall P m → map_Forall P (del ks m).
Proof.
  intros H. unfold del. induction ks as [| k ks IH]; [done |].
  cbn [foldr]. by apply map_Forall_delete.
Qed.

Lemma handle_scheduled_nonneg (r : Request) (db : Redis) :
  scheduled_nonneg db → scheduled_nonneg (snd (handle r db)).
Proof.
  unfold scheduled_nonneg. intros H.
  destruct r as [c e | c e | c | c]; cbn [handle].
  - rewrite ApiLog_POST_cases. destruct (valid_event e); cbn [snd]; [| done].
    by rewrite addEvent_unfold.
  - rewrite ApiPostsLog_POST_cases. destruct (valid_post_event e); cbn [snd]; [| done].
    rewrite addPostEvent_unfold. cbn [post_stats].
    apply map_Forall_insert_2; [| done].
    apply scheduled_update_nonneg.
    destruct (post_stats db !! _) as [r0 |] eqn:Hr0; [| done].
    by apply (H _ _ Hr0).
  - unfold ApiClear.POST. cbn [snd]. by case_match.
  - unfold ApiPostsClear.POST. cbn [snd].
    case_match; cbn [post_stats with_post_events with_post_stats]; [| done].
    by apply del_Forall.
Qed.

(** C2. On the post stream one event changes the three counters as the
    table says: post_scheduled adds 1 to scheduled; post_published adds 1 to
    posted and post_failed adds 1 to failed, and each takes 1 off scheduled
    unless it is 0 already. A sequence of accepted post events for one date
    and one persona, served one after the other, leaves the record obtained
    by applying them in order to the previous record (the zeroed one when
    there was none). A post_published event for a persona with no record
    gives scheduled 0, posted 1, failed 0. Whatever requests are served,
    no scheduled counter of the store becomes negative. *)
Theorem post_counters_follow_table :
  (∀ (e : PostEvent.t) (s : PostStats.t),
     0 ≤ PostStats.scheduled s →
     post_counters (update_post_stats e s)
     = post_delta (PostEvent.action e) (post_counters s)
     ∧ PostStats.lastActivity (update_post_stats e s) = PostEvent.timestamp e)
  ∧ (∀ (d pid : string) (evs : list (Clock * PostEvent.t)) (db : Redis),
       pid ≠ "" → evs ≠ [] → Forall (for_post_record d pid) evs →
       0 ≤ PostStats.scheduled (default PostStats.zero (post_record d pid db)) →
       ∃ r : PostStats.t,
         post_record d pid (submit_all_posts evs db) = Some r
         ∧ r = replay_posts (default PostStats.zero (post_record d pid db)) evs
         ∧ post_counters r
           = foldl (λ cs ce, post_delta (PostEvent.action (snd ce)) cs)
                   (post_counters (default PostStats.zero (post_record d pid db)))
                   evs
         ∧ 0 ≤ PostStats.scheduled r)
  ∧ (∀ (c : Clock) (ts : option Z) (pid : string) (db : Redis),
       pid ≠ "" → post_record (today c) pid db = None →
       post_record (today c) pid
         (snd (ApiPostsLog.POST c
                 (PostEvent.mk ts (Some pid) None (Some "post_published") None None)
                 db))
       = Some (PostStats.mk 0 1 0 ts None))
  ∧ (∀ (rs : list Request) (db : Redis),
       scheduled_nonneg db → scheduled_nonneg (serve rs db))
  ∧ scheduled_nonneg empty_redis.
Proof.
  split; [| split; [| split; [| split]]].
  - intros e s Hs. split; [by apply post_counters_update | apply lastActivity_update_post].
  - intros d pid evs db Hpid Hne Hall H0.
    rewrite (submit_all_posts_replay d pid evs) by done. destruct evs; [done |].
    destruct (post_counters_replay _ (p :: evs) H0) as [Hc Hn].
    eexists; split; [reflexivity |]. by split.
  - intros c ts pid db Hpid Hnone.
    rewrite ApiPostsLog_POST_cases. unfold valid_post_event.
    cbn [PostEvent.personaId PostEvent.action]. rewrite (truthy_Some _ Hpid).
    cbn [truthy includes existsb ApiPostsLog.validActions strict_eq String.eqb
         Ascii.eqb Bool.eqb negb andb orb snd].
    rewrite (post_record_addPostEvent c
               (PostEvent.mk ts (Some pid) None (Some "post_published") None None)
               db (today c) pid eq_refl eq_refl).
    by rewrite Hnone.
  - intros rs. induction rs as [| r rs IH]; intros db H; [done |].
    unfold serve in *. cbn [foldl]. apply IH. by apply handle_scheduled_nonneg.
  - unfold scheduled_nonneg, empty_redis. cbn [post_stats]. apply map_Forall_empty.
Qed.

(** The second scenario of the specification: a scheduled post that is then
    published leaves scheduled 0, posted 1, failed 0. *)
Lemma post_counters_follow_table_witness :
  "blue" ≠ ""
  ∧ [(scenario_clock, post_event "blue" "post_scheduled");
     (scenario_clock, post_event "blue" "post_published")] ≠ []
  ∧ Forall (for_post_record "2026-11-02" "blue")
      [(scenario_clock, post_event "blue" "post_scheduled");
       (scenario_clock, post_event "blue" "post_published")]
  ∧ 0 ≤ PostStats.scheduled
          (default PostStats.zero (post_record "2026-11-02" "blue" empty_redis))
  ∧ ∃ r : PostStats.t,
      post_record "2026-11-02" "blue"
        (submit_all_posts [(scenario_clock, post_event "blue" "post_scheduled");
                           (scenario_clock, post_event "blue" "post_published")]
                          empty_redis) = Some r
      ∧ post_counters r = (0, 1, 0).
Proof.
  assert (H1 : "blue" ≠ "") by discriminate.
  assert (H2 : [(scenario_clock, post_event "blue" "post_scheduled");
                (scenario_clock, post_event "blue" "post_published")] ≠ [])
    by discriminate.
  assert (H3 : Forall (for_post_record "2026-11-02" "blue")
                 [(scenario_clock, post_event "blue" "post_scheduled");
                  (scenario_clock, post_event "blue" "post_published")])
    by (repeat constructor).
  assert (H4 : 0 ≤ PostStats.scheduled
                     (default PostStats.zero
                        (post_record "2026-11-02" "blue" empty_redis)))
    by (vm_compute; discriminate).
  split; [exact H1 |]. split; [exact H2 |]. split; [exact H3 |]. split; [exact H4 |].
  destruct (proj1 (proj2 post_counters_follow_table) "2026-11-02" "blue" _ empty_redis
              H1 H2 H3 H4) as (r & Hr & _ & Hc & _).
  exists r. split; [exact Hr |]. rewrite Hc. reflexivity.
Defined.

(** ** Validation at the ingestion routes *)

Lemma truthy_false (x : option string) : missing_or_empty x → truthy x = false.
Proof. by intros [-> | ->]. Qed.

(** C4. An event whose profile (persona) id or action is missing or empty,
    and on the post stream an event whose action is none of post_scheduled,
    post_published and post_failed, is answered with status 400 and an
    error message, and the store after the request is the store before it:
    no log entry, no counter record created or changed. *)
Theorem invalid_event_rejected :
  (∀ (c : Clock) (e : ActivityEvent.t) (db : Redis),
     missing_or_empty (ActivityEvent.profileId e)
     ∨ missing_or_empty (ActivityEvent.action e) →
     status (fst (ApiLog.POST c e db)) = 400
     ∧ (∃ msg, body (fst (ApiLog.POST c e db)) = JObj [("error", JStr msg)])
     ∧ snd (ApiLog.POST c e db) = db)
  ∧ (∀ (c : Clock) (e : PostEvent.t) (db : Redis),
       missing_or_empty (PostEvent.personaId e)
       ∨ missing_or_empty (PostEvent.action e)
       ∨ ¬ In (PostEvent.action e)
            [Some "post_scheduled"; Some "post_published"; Some "post_failed"] →
       status (fst (ApiPostsLog.POST c e db)) = 400
       ∧ (∃ msg, body (fst (ApiPostsLog.POST c e db)) = JObj [("error", JStr msg)])
       ∧ snd (ApiPostsLog.POST c e db) = db).
Proof.
  split.
  - intros c e db H. rewrite ApiLog_POST_cases.
    assert (valid_event e = false) as ->; [| by eauto].
    unfold valid_event.
    destruct H as [H | H]; rewrite (truthy_false _ H); [done | apply andb_false_r].
  - intros c e db H. rewrite ApiPostsLog_POST_cases.
    assert (valid_post_event e = false) as ->; [| by eauto].
    unfold valid_post_event.
    destruct H as [H | [H | H]].
    + by rewrite (truthy_false _ H).
    + rewrite (truthy_false _ H). by rewrite andb_false_r.
    + apply andb_false_iff. right. apply not_true_is_false. intros Hin.
      apply H. unfold includes in Hin. apply existsb_exists in Hin as (lit & Hlit & Heq).
      destruct (PostEvent.action e) as [a |]; [| done].
      cbn in Heq. apply String.eqb_eq in Heq as ->.
      destruct Hlit as [<- | [<- | [<- | []]]]; cbn; auto.
Qed.

Lemma invalid_event_rejected_witness :
  (missing_or_empty (ActivityEvent.profileId
                       (ActivityEvent.mk (Some 7) (Some "") None (Some "like") None None))
   ∨ missing_or_empty (ActivityEvent.action
                         (ActivityEvent.mk (Some 7) (Some "") None (Some "like") None None)))
  ∧ snd (ApiLog.POST scenario_clock
           (ActivityEvent.mk (Some 7) (Some "") None (Some "like") None None)
           empty_redis) = empty_redis.
Proof.
  assert (H : missing_or_empty (ActivityEvent.profileId
                (ActivityEvent.mk (Some 7) (Some "") None (Some "like") None None))
              ∨ missing_or_empty (ActivityEvent.action
                (ActivityEvent.mk (Some 7) (Some "") None (Some "like") None None)))
    by (left; right; reflexivity).
  split; [exact H |].
  exact (proj2 (proj2 (proj1 invalid_event_rejected scenario_clock _ empty_redis H))).
Defined.

(** ** The arrival time *)

(** C8. The entry an accepted event leaves at the head of the log of its
    stream is the event of the request with [receivedAt] set to the reading
    of the server clock: a value the client sent in [receivedAt] is
    overwritten, and [timestamp] and the other fields are as sent. *)
Theorem receivedAt_is_server_time :
  (∀ (c : Clock) (e : ActivityEvent.t) (db : Redis),
     valid_event e = true →
     ∃ stored : ActivityEvent.t,
       head (warmup_log (snd (ApiLog.POST c e db))) = Some stored
       ∧ ActivityEvent.receivedAt stored = Some (now c)
       ∧ ActivityEvent.timestamp stored = ActivityEvent.timestamp e
       ∧ stored = ActivityEvent.mk (ActivityEvent.timestamp e)
                    (ActivityEvent.profileId e) (ActivityEvent.username e)
                    (ActivityEvent.action e) (ActivityEvent.details e)
                    (Some (now c)))
  ∧ (∀ (c : Clock) (e : PostEvent.t) (db : Redis),
       valid_post_event e = true →
       ∃ stored : PostEvent.t,
         head (post_log (snd (ApiPostsLog.POST c e db))) = Some stored
         ∧ PostEvent.receivedAt stored = Some (now c)
         ∧ PostEvent.timestamp stored = PostEvent.timestamp e
         ∧ stored = PostEvent.mk (PostEvent.timestamp e)
                      (PostEvent.personaId e) (PostEvent.handle e)
                      (PostEvent.action e) (PostEvent.details e)
                      (Some (now c))).
Proof.
  split.
  - intros c e db Hv. rewrite ApiLog_POST_cases, Hv. cbn [snd].
    rewrite warmup_log_addEvent. eexists. by repeat split.
  - intros c e db Hv. rewrite ApiPostsLog_POST_cases, Hv. cbn [snd].
    rewrite post_log_addPostEvent. eexists. by repeat split.
Qed.

(** A client that sends its own [receivedAt] sees it replaced. *)
Lemma receivedAt_is_server_time_witness :
  valid_event (ActivityEvent.mk (Some 5) (Some "green") None (Some "like") None (Some 1))
  = true
  ∧ ∃ stored : ActivityEvent.t,
      head (warmup_log (snd (ApiLog.POST scenario_clock
              (ActivityEvent.mk (Some 5) (Some "green") None (Some "like") None (Some 1))
              empty_redis))) = Some stored
      ∧ ActivityEvent.receivedAt stored = Some 1793577600000
      ∧ ActivityEvent.timestamp stored = Some 5.
Proof.
  split; [reflexivity |].
  destruct (proj1 receivedAt_is_server_time scenario_clock
              (ActivityEvent.mk (Some 5) (Some "green") None (Some "like") None (Some 1))
              empty_redis eq_refl) as (stored & Hh & Hr & Ht & _).
  exists stored. split; [exact Hh |]. split; [exact Hr | exact Ht].
Defined.

(** ** Actions outside the enumeration, on the warmup stream *)

Lemma delta_uncounted (a : string) :
  ¬ In a counted_actions → delta (Some a) = [0; 0; 0; 0; 0; 0].
Proof.
  intros Hn. unfold delta, strict_eq.
  repeat match goal with
    | |- context [String.eqb a ?lit] =>
        destruct (String.eqb_spec a lit) as [-> | _];
        [exfalso; apply Hn; cbn; tauto |]
    end.
  reflexivity.
Qed.

(** C10. On the warmup stream an event with a non-empty profile id and any
    non-empty action, also one outside the enumeration such as "foobar", is
    acknowledged with status 200, stored at the head of the log, and written
    to the counter record of its profile: [lastActivity] becomes the
    timestamp of the event and, when the action is none of the six counted
    ones, every counter keeps its value (zero for a new record). The same
    action on the post stream is rejected. *)
Theorem unknown_action_accepted :
  (∀ (c : Clock) (e : ActivityEvent.t) (db : Redis) (pid a : string),
     ActivityEvent.profileId e = Some pid → pid ≠ "" →
     ActivityEvent.action e = Some a → a ≠ "" →
     fst (ApiLog.POST c e db) = mkResponse 200 (JObj [("success", JBool true)])
     ∧ head (warmup_log (snd (ApiLog.POST c e db)))
       = Some (ActivityEvent.set_receivedAt (now c) e)
     ∧ ∃ r : ProfileStats.t,
         profile_record (today c) pid (snd (ApiLog.POST c e db)) = Some r
         ∧ ProfileStats.lastActivity r = ActivityEvent.timestamp e
         ∧ (¬ In a counted_actions →
            counters r
            = counters (default ProfileStats.zero (profile_record (today c) pid db))))
  ∧ ¬ In "foobar" counted_actions
  ∧ (∀ (c : Clock) (e : PostEvent.t) (db : Redis),
       PostEvent.action e = Some "foobar" →
       status (fst (ApiPostsLog.POST c e db)) = 400
       ∧ snd (ApiPostsLog.POST c e db) = db).
Proof.
  split; [| split].
  - intros c e db pid a Hp Hpid Ha Hane.
    rewrite ApiLog_POST_cases. unfold valid_event.
    rewrite Hp, Ha, !truthy_Some by done. cbn [andb fst snd].
    split; [done |]. split; [by rewrite warmup_log_addEvent |].
    rewrite (profile_record_addEvent c e db (today c) pid eq_refl Hp).
    eexists. split; [reflexivity |]. split; [apply lastActivity_update_stats |].
    intros Hn. rewrite counters_update_stats, Ha, (delta_uncounted a Hn).
    destruct (default _ _) as [l b se ex v ss la u].
    cbv -[Z.add]. repeat (f_equal; try lia).
  - cbn. intros H. repeat destruct H as [H | H]; try discriminate H. done.
  - intros c e db Ha. rewrite ApiPostsLog_POST_cases.
    assert (valid_post_event e = false) as ->; [| done].
    unfold valid_post_event. rewrite Ha. cbn. apply andb_false_r.
Qed.

Lemma unknown_action_accepted_witness :
  ActivityEvent.profileId (scenario_event "green" "foobar") = Some "green"
  ∧ "green" ≠ ""
  ∧ ActivityEvent.action (scenario_event "green" "foobar") = Some "foobar"
  ∧ "foobar" ≠ ""
  ∧ fst (ApiLog.POST scenario_clock (scenario_event "green" "foobar") empty_redis)
    = mkResponse 200 (JObj [("success", JBool true)])
  ∧ ∃ r : ProfileStats.t,
      profile_record "2026-11-02" "green"
        (snd (ApiLog.POST scenario_clock (scenario_event "green" "foobar") empty_redis))
      = Some r
      ∧ ProfileStats.lastActivity r = Some 1793577599000
      ∧ counters r = [0; 0; 0; 0; 0; 0].
Proof.
  assert (H1 : "green" ≠ "") by discriminate.
  assert (H2 : "foobar" ≠ "") by discriminate.
  split; [reflexivity |]. split; [exact H1 |]. split; [reflexivity |].
  split; [exact H2 |].
  destruct (proj1 unknown_action_accepted scenario_clock
              (scenario_event "green" "foobar") empty_redis "green" "foobar"
              eq_refl H1 eq_refl H2) as (Hresp & _ & r & Hr & Hla & Hc).
  split; [exact Hresp |]. exists r. split; [exact Hr |]. split; [exact Hla |].
  rewrite (Hc (proj1 (proj2 unknown_action_accepted))). reflexivity.
Defined.

(** ** Retries *)

Lemma update_stats_not_idempotent (e : ActivityEvent.t) (s : ProfileStats.t) (a : string) :
  ActivityEvent.action e = Some a → In a counted_actions →
  update_stats e (update_stats e s) ≠ update_stats e s.
Proof.
  intros Ha Hin Heq. apply (f_equal counters) in Heq.
  rewrite !counters_update_stats, Ha in Heq.
  destruct s as [l b se ex v ss la u].
  destruct Hin as [<- | [<- | [<- | [<- | [<- | [<- | []]]]]]];
    cbv -[Z.add] in Heq; injection Heq; lia.
Qed.

Lemma update_post_stats_not_idempotent (e : PostEvent.t) (s : PostStats.t) :
  includes ApiPostsLog.validActions (PostEvent.action e) = true →
  update_post_stats e (update_post_stats e s) ≠ update_post_stats e s.
Proof.
  intros Hin Heq.
  assert (Hsum : ∀ x, PostStats.scheduled (update_post_stats e x)
                      + 2 * PostStats.posted (update_post_stats e x)
                      + 2 * PostStats.failed (update_post_stats e x)
                      > PostStats.scheduled x + 2 * PostStats.posted x
                        + 2 * PostStats.failed x).
  { intros [sc po fa la u]. unfold update_post_stats, apply_post_action.
    destruct e as [ts pid h [a |] dt ra]; [| done].
    cbn [PostEvent.action PostEvent.timestamp PostEvent.handle] in *.
    unfold includes in Hin. apply existsb_exists in Hin as (lit & Hlit & Hl).
    cbn in Hl. apply String.eqb_eq in Hl as ->.
    destruct (truthy h);
      cbn [PostStats.scheduled PostStats.incr_posted PostStats.incr_failed
           PostStats.set_lastActivity PostStats.set_handle];
      destruct (Z.ltb_spec 0 sc);
      destruct Hlit as [<- | [<- | [<- | []]]]; cbv -[Z.add Z.sub Z.mul Z.gt]; lia. }
  specialize (Hsum (update_post_stats e s)). rewrite Heq in Hsum. lia.
Qed.

Lemma length_two_appends {V : Type} (n : nat) (x y : V) (l : list V) :
  length (take n (x :: take n (y :: l))) = (n `min` (length l + 2))%nat.
Proof. rewrite !length_take. cbn [length]. rewrite length_take. cbn [length]. lia. Qed.

Lemma head_two_appends {V : Type} (n : nat) (x y : V) (l : list V) :
  (2 ≤ n)%nat → take 2 (take n (x :: take n (y :: l))) = [x; y].
Proof.
  intros Hn. destruct n as [| [| n]]; [lia | lia |]. reflexivity.
Qed.

(** C7. The store keeps no trace of which events it has seen: an accepted
    event submitted a second time is processed like any other event. Both
    requests are acknowledged; the log receives two entries, the two
    stamped copies, at its head (so it grows by two while the cap allows);
    and the counter record of the entity is updated twice. For an action
    that counts, the record after the retry differs from the record after
    the first submission: submitting is not idempotent. *)
Theorem retry_is_counted_twice :
  (∀ (c1 c2 : Clock) (e : ActivityEvent.t) (db : Redis) (pid : string),
     today c1 = today c2 → ActivityEvent.profileId e = Some pid →
     valid_event e = true →
     status (fst (ApiLog.POST c1 e db)) = 200
     ∧ status (fst (ApiLog.POST c2 e (snd (ApiLog.POST c1 e db)))) = 200
     ∧ take 2 (warmup_log (snd (ApiLog.POST c2 e (snd (ApiLog.POST c1 e db)))))
       = [ActivityEvent.set_receivedAt (now c2) e;
          ActivityEvent.set_receivedAt (now c1) e]
     ∧ length (warmup_log (snd (ApiLog.POST c2 e (snd (ApiLog.POST c1 e db)))))
       = (500 `min` (length (warmup_log db) + 2))%nat
     ∧ profile_record (today c1) pid (snd (ApiLog.POST c2 e (snd (ApiLog.POST c1 e db))))
       = Some (update_stats e (update_stats e
                 (default ProfileStats.zero (profile_record (today c1) pid db))))
     ∧ (∀ a, ActivityEvent.action e = Some a → In a counted_actions →
             profile_record (today c1) pid
               (snd (ApiLog.POST c2 e (snd (ApiLog.POST c1 e db))))
             ≠ profile_record (today c1) pid (snd (ApiLog.POST c1 e db))))
  ∧ (∀ (c1 c2 : Clock) (e : PostEvent.t) (db : Redis) (pid : string),
       today c1 = today c2 → PostEvent.personaId e = Some pid →
       valid_post_event e = true →
       status (fst (ApiPostsLog.POST c1 e db)) = 200
       ∧ status (fst (ApiPostsLog.POST c2 e (snd (ApiPostsLog.POST c1 e db)))) = 200
       ∧ take 2 (post_log (snd (ApiPostsLog.POST c2 e (snd (ApiPostsLog.POST c1 e db)))))
         = [PostEvent.set_receivedAt (now c2) e; PostEvent.set_receivedAt (now c1) e]
       ∧ length (post_log (snd (ApiPostsLog.POST c2 e (snd (ApiPostsLog.POST c1 e db)))))
         = (200 `min` (length (post_log db) + 2))%nat
       ∧ post_record (today c1) pid
           (snd (ApiPostsLog.POST c2 e (snd (ApiPostsLog.POST c1 e db))))
         = Some (update_post_stats e (update_post_stats e
                   (default PostStats.zero (post_record (today c1) pid db))))
       ∧ post_record (today c1) pid
           (snd (ApiPostsLog.POST c2 e (snd (ApiPostsLog.POST c1 e db))))
         ≠ post_record (today c1) pid (snd (ApiPostsLog.POST c1 e db))).
Proof.
  split.
  - intros c1 c2 e db pid Hd Hp Hv. rewrite !ApiLog_POST_cases, Hv. cbn [fst snd].
    split; [done |]. split; [done |].
    rewrite !warmup_log_addEvent.
    split; [by apply head_two_appends; vm_compute; lia |].
    split; [apply length_two_appends |].
    rewrite (profile_record_addEvent c2 e _ (today c1) pid (eq_sym Hd) Hp).
    rewrite (profile_record_addEvent c1 e db (today c1) pid eq_refl Hp).
    split; [done |].
    intros a Ha Hin Heq. injection Heq.
    by apply (update_stats_not_idempotent e _ a).
  - intros c1 c2 e db pid Hd Hp Hv. rewrite !ApiPostsLog_POST_cases, Hv. cbn [fst snd].
    split; [done |]. split; [done |].
    rewrite !post_log_addPostEvent.
    split; [by apply head_two_appends; vm_compute; lia |].
    split; [apply length_two_appends |].
    rewrite (post_record_addPostEvent c2 e _ (today c1) pid (eq_sym Hd) Hp).
    rewrite (post_record_addPostEvent c1 e db (today c1) pid eq_refl Hp).
    split; [done |].
    intros Heq. injection Heq. apply update_post_stats_not_idempotent.
    unfold valid_post_event in Hv. by apply andb_true_iff in Hv as [_ Hv].
Qed.

(** A retried like on an empty store: two log entries, likes 2. *)
Lemma retry_is_counted_twice_witness :
  today scenario_clock = today scenario_clock
  ∧ ActivityEvent.profileId (scenario_event "green" "like") = Some "green"
  ∧ valid_event (scenario_event "green" "like") = true
  ∧ length (warmup_log (snd (ApiLog.POST scenario_clock (scenario_event "green" "like")
              (snd (ApiLog.POST scenario_clock (scenario_event "green" "like")
                      empty_redis))))) = 2%nat
  ∧ (ProfileStats.likes <$>
       profile_record "2026-11-02" "green"
         (snd (ApiLog.POST scenario_clock (scenario_event "green" "like")
                 (snd (ApiLog.POST scenario_clock (scenario_event "green" "like")
                         empty_redis))))) = Some 2.
Proof.
  split; [reflexivity |]. split; [reflexivity |]. split; [reflexivity |].
  destruct (proj1 retry_is_counted_twice scenario_clock scenario_clock
              (scenario_event "green" "like") empty_redis "green"
              eq_refl eq_refl eq_refl) as (_ & _ & _ & Hlen & Hrec & _).
  split; [rewrite Hlen; reflexivity |].
  change (today scenario_clock) with "2026-11-02" in Hrec.
  rewrite Hrec. reflexivity.
Defined.

(** ** The administrative clear *)

Section KeysFacts.
Context {V : Type}.
Implicit Types (m : gmap string V) (ks : list string).

Lemma elem_of_keys (p k : string) m :
  k ∈ keys p m ↔ starts_with p k = true ∧ is_Some (m !! k).
Proof.
  unfold keys. rewrite list_elem_of_filter, list_elem_of_fmap. split.
  - intros [Hp ([k' v] & -> & Hin)]. split; [done |].
    apply elem_of_map_to_list in Hin. by exists v.
  - intros [Hp [v Hv]]. split; [done |]. exists (k, v). split; [done |].
    by apply elem_of_map_to_list.
Qed.

Lemma NoDup_keys (p : string) m : NoDup (keys p m).
Proof. unfold keys. apply NoDup_filter, NoDup_fst_map_to_list. Qed.

Lemma lookup_del ks m (k : string) :
  del ks m !! k = if decide (k ∈ ks) then None else m !! k.
Proof.
  unfold del. induction ks as [| k' ks IH]; cbn [foldr].
  - by rewrite decide_False by apply not_elem_of_nil.
  - destruct (decide (k' = k)) as [-> | Hne].
    + rewrite lookup_delete_eq. by rewrite decide_True by apply list_elem_of_here.
    + rewrite lookup_delete_ne by done. rewrite IH.
      destruct (decide (k ∈ ks)) as [Hin | Hnin].
      * by rewrite decide_True by by apply list_elem_of_further.
      * rewrite decide_False; [done |].
        intros Hin. apply elem_of_cons in Hin as [-> | Hin]; done.
Qed.

Lemma size_del ks m :
  NoDup ks → (∀ k, k ∈ ks → is_Some (m !! k)) →
  (size (del ks m) + length ks)%nat = size m.
Proof.
  unfold del. induction 1 as [| k ks Hk Hnd IH]; intros Hdom; cbn [foldr length].
  - lia.
  - assert (is_Some (foldr delete m ks !! k)) as [v Hv].
    { change (foldr delete m ks) with (del ks m). rewrite lookup_del.
      rewrite decide_False by done. apply Hdom. apply list_elem_of_here. }
    rewrite map_size_delete, Hv.
    pose proof (map_size_ne_0_lookup_2 (foldr delete m ks) k (mk_is_Some _ _ Hv)).
    rewrite <- IH; [lia |]. intros k' Hk'. apply Hdom. by apply list_elem_of_further.
Qed.

Lemma keys_del_keys (p : string) m : keys p (del (keys p m) m) = [].
Proof.
  destruct (keys p (del (keys p m) m)) as [| k ks] eqn:Hks; [done |].
  assert (Hin : k ∈ keys p (del (keys p m) m)) by (rewrite Hks; apply list_elem_of_here).
  apply elem_of_keys in Hin as [Hp [v Hv]].
  rewrite lookup_del in Hv. case_decide as Hk; [done |].
  exfalso. apply Hk. apply elem_of_keys. by eauto.
Qed.
End KeysFacts.

Lemma warmup_stats_clear (c : Clock) (db : Redis) :
  warmup_stats (snd (ApiClear.POST c db))
  = del (keys ("warmup:stats:" +:+ today c +:+ ":") (warmup_stats db)) (warmup_stats db).
Proof.
  unfold ApiClear.POST. cbn [snd].
  by destruct (keys _ (warmup_stats db)).
Qed.

Lemma post_stats_clear (c : Clock) (db : Redis) :
  post_stats (snd (ApiPostsClear.POST c db))
  = del (keys ("posts:stats:" +:+ today c +:+ ":") (post_stats db)) (post_stats db).
Proof.
  unfold ApiPostsClear.POST. cbn [snd].
  by destruct (keys _ (post_stats db)).
Qed.

Lemma warmup_events_clear (c : Clock) (db : Redis) :
  warmup_events (snd (ApiClear.POST c db)) !! EVENTS_KEY = None.
Proof.
  unfold ApiClear.POST, with_warmup_events, with_warmup_stats, del.
  cbn [snd foldr]. case_match; cbn [warmup_events]; by rewrite lookup_delete_eq.
Qed.

Lemma post_events_clear (c : Clock) (db : Redis) :
  post_events (snd (ApiPostsClear.POST c db)) !! POST_EVENTS_KEY = None.
Proof.
  unfold ApiPostsClear.POST, with_post_events, with_post_stats, del.
  cbn [snd foldr]. case_match; cbn [post_events]; by rewrite lookup_delete_eq.
Qed.

(** C9. After the clear of a stream for the current date, the counter
    records of that stream for that date enumerate to the empty mapping,
    the recent events of the stream are the empty sequence whatever the
    limit, and so the today query answers with no entity, no event and, on
    the post stream, zero totals. The response of the clear carries in
    [cleared.statsKeys] the number of counter keys it removed from the
    store. *)
Theorem clear_then_query_empty :
  (∀ (c : Clock) (db : Redis),
     getStatsForDate (today c) (snd (ApiClear.POST c db)) = []
     ∧ (∀ limit : Z, getRecentEvents limit (snd (ApiClear.POST c db)) = [])
     ∧ ApiStats.data c (snd (ApiClear.POST c db)) = DashboardData.mk (today c) [] []
     ∧ ∃ n : nat,
         fst (ApiClear.POST c db)
         = mkResponse 200
             (JObj [("success", JBool true);
                    ("cleared", JObj [("statsKeys", JNum (Z.of_nat n));
                                      ("events", JBool true)])])
         ∧ (size (warmup_stats (snd (ApiClear.POST c db))) + n)%nat
           = size (warmup_stats db))
  ∧ (∀ (c : Clock) (db : Redis),
       getPostStatsForDate (today c) (snd (ApiPostsClear.POST c db)) = []
       ∧ (∀ limit : Z, getRecentPostEvents limit (snd (ApiPostsClear.POST c db)) = [])
       ∧ ApiPosts.data c (snd (ApiPostsClear.POST c db))
         = PostsData.mk (today c) (Totals.mk 0 0 0) [] []
       ∧ ∃ n : nat,
           fst (ApiPostsClear.POST c db)
           = mkResponse 200
               (JObj [("success", JBool true);
                      ("cleared", JObj [("statsKeys", JNum (Z.of_nat n));
                                        ("events", JBool true)])])
           ∧ (size (post_stats (snd (ApiPostsClear.POST c db))) + n)%nat
             = size (post_stats db)).
Proof.
  split; intros c db.
  - assert (Hstats : getStatsForDate (today c) (snd (ApiClear.POST c db)) = []).
    { unfold getStatsForDate. rewrite warmup_stats_clear.
      change (STATS_PREFIX +:+ today c +:+ ":") with ("warmup:stats:" +:+ today c +:+ ":").
      by rewrite keys_del_keys. }
    assert (Hev : ∀ limit, getRecentEvents limit (snd (ApiClear.POST c db)) = []).
    { intros limit. apply lrange_absent, warmup_events_clear. }
    split; [done |]. split; [done |]. split.
    + unfold ApiStats.data, getTodayStats. by rewrite Hstats, Hev.
    + eexists. split; [reflexivity |].
      rewrite warmup_stats_clear. apply size_del; [apply NoDup_keys |].
      intros k Hk. by apply elem_of_keys in Hk as [_ Hk].
  - assert (Hstats : getPostStatsForDate (today c) (snd (ApiPostsClear.POST c db)) = []).
    { unfold getPostStatsForDate. rewrite post_stats_clear.
      change (POST_STATS_PREFIX +:+ today c +:+ ":")
        with ("posts:stats:" +:+ today c +:+ ":").
      by rewrite keys_del_keys. }
    assert (Hev : ∀ limit, getRecentPostEvents limit (snd (ApiPostsClear.POST c db)) = []).
    { intros limit. apply lrange_absent, post_events_clear. }
    split; [done |]. split; [done |]. split.
    + unfold ApiPosts.data, getTodayPostStats. by rewrite Hstats, Hev.
    + eexists. split; [reflexivity |].
      rewrite post_stats_clear. apply size_del; [apply NoDup_keys |].
      intros k Hk. by apply elem_of_keys in Hk as [_ Hk].
Qed.

(** ** The sort of the query *)

Section SortFacts.
Context {A : Type} (key : A → Z) (cmp : A → A → Z).
Hypothesis cmp_key : ∀ a b, cmp a b = key b - key a.

Lemma sort_insert_perm (x : A) (l : list A) : sort_insert cmp x l ≡ₚ x :: l.
Proof.
  induction l as [| y l IH]; cbn [sort_insert]; [done |].
  case_match; [done |]. rewrite IH. apply Permutation_swap.
Qed.

Lemma js_sort_perm (l : list A) : js_sort cmp l ≡ₚ l.
Proof.
  unfold js_sort. induction l as [| x l IH]; cbn [foldr]; [done |].
  by rewrite sort_insert_perm, IH.
Qed.

Lemma sort_insert_sorted (x : A) (l : list A) :
  StronglySorted (before key) l → StronglySorted (before key) (sort_insert cmp x l).
Proof.
  induction 1 as [| y l Hs IH Hy]; cbn [sort_insert].
  - repeat constructor.
  - rewrite cmp_key. destruct (Z.leb_spec (key y - key x) 0) as [Hle | Hgt].
    + constructor; [by constructor |]. constructor; [unfold before; lia |].
      eapply Forall_impl; [exact Hy |]. unfold before. intros z Hz. cbn in Hz. lia.
    + constructor; [done |]. rewrite sort_insert_perm.
      constructor; [unfold before; lia | done].
Qed.

Lemma js_sort_sorted (l : list A) : StronglySorted (before key) (js_sort cmp l).
Proof.
  unfold js_sort. induction l as [| x l IH]; cbn [foldr]; [constructor |].
  by apply sort_insert_sorted.
Qed.

Lemma sort_insert_stable (t : Z) (x : A) (l : list A) :
  filter (λ a, key a = t) (sort_insert cmp x l) = filter (λ a, key a = t) (x :: l).
Proof.
  induction l as [| y l IH]; cbn [sort_insert]; [done |].
  rewrite cmp_key. destruct (Z.leb_spec (key y - key x) 0) as [Hle | Hgt]; [done |].
  rewrite (filter_cons _ y), IH, !(filter_cons _ x), (filter_cons _ y).
  destruct (decide (key y = t)), (decide (key x = t)); (done || lia).
Qed.

(** Entries of equal key keep the order they had before the sort. *)
Lemma js_sort_stable (t : Z) (l : list A) :
  filter (λ a, key a = t) (js_sort cmp l) = filter (λ a, key a = t) l.
Proof.
  unfold js_sort. induction l as [| x l IH]; cbn [foldr]; [done |].
  by rewrite sort_insert_stable, !(filter_cons _ x), IH.
Qed.
End SortFacts.

Lemma by_activity_key (a b : PersonaPostStats.t) :
  ApiPosts.by_activity a b = activity b - activity a.
Proof. reflexivity. Qed.

(** ** The enumeration of the counter records of a date *)

Lemma starts_with_app (p s : string) : starts_with p (p +:+ s) = true.
Proof.
  induction p as [| a p IH]; [done |].
  change (String a p +:+ s) with (String a (p +:+ s)). cbn [starts_with].
  by rewrite Ascii.eqb_refl, IH.
Qed.

Lemma starts_with_split (p k : string) :
  starts_with p k = true → k = p +:+ string_drop (String.length p) k.
Proof.
  revert k. induction p as [| a p IH]; intros k H; [done |].
  destruct k as [| b k]; cbn [starts_with] in H; [done |].
  apply andb_true_iff in H as [Hab Hp]. apply Ascii.eqb_eq in Hab as ->.
  cbn [String.length string_drop].
  change (String b p +:+ string_drop (String.length p) k)
    with (String b (p +:+ string_drop (String.length p) k)).
  f_equal. by apply IH.
Qed.

Lemma replace_prefix (p k : string) :
  starts_with p k = true → replace p "" k = string_drop (String.length p) k.
Proof. intros H. destruct k; cbn [replace]; by rewrite H. Qed.

(** The four key families of the program never meet. *)
Lemma key_families_disjoint (d1 d2 : string) (id1 id2 : option string) :
  statsKey d1 id1 ≠ postStatsKey d2 id2
  ∧ statsKey d1 id1 ≠ EVENTS_KEY
  ∧ statsKey d1 id1 ≠ POST_EVENTS_KEY
  ∧ postStatsKey d2 id2 ≠ EVENTS_KEY
  ∧ postStatsKey d2 id2 ≠ POST_EVENTS_KEY
  ∧ EVENTS_KEY ≠ POST_EVENTS_KEY.
Proof. repeat split; discriminate. Qed.

Section JsObjectFacts.
Context {V : Type}.
Implicit Types (o : list (string * V)) (k : string) (v : V).

Lemma js_has_false k o : js_has k o = false ↔ k ∉ o.*1.
Proof.
  unfold js_has. induction o as [| [k' v'] o IH]; cbn.
  - split; [intros _; apply not_elem_of_nil | done].
  - rewrite orb_false_iff, IH, not_elem_of_cons, String.eqb_neq.
    split; intros [H1 H2]; (split; [by intros -> | done]).
Qed.

Lemma js_put_index_perm (n : N) k v o : js_put_index n k v o ≡ₚ (k, v) :: o.
Proof.
  induction o as [| kv o IH]; cbn [js_put_index]; [done |].
  destruct (array_index kv.1) as [n' |]; [| done].
  case_match; [| done]. rewrite IH. apply Permutation_swap.
Qed.

Lemma js_set_fresh k v o :
  k ∉ o.*1 →
  js_set k v o ≡ₚ (if decide (k = "__proto__") then [] else [(k, v)]) ++ o.
Proof.
  intros Hk. unfold js_set.
  destruct (String.eqb_spec k "__proto__") as [-> | Hne].
  - by rewrite decide_True.
  - rewrite decide_False by done.
    apply js_has_false in Hk as ->.
    destruct (array_index k); [apply js_put_index_perm |].
    cbn. symmetry. apply Permutation_cons_append.
Qed.

(** Building an object from entries with distinct keys keeps every entry
    but one named [__proto__]. *)
Lemma js_build_perm (l : list (string * V)) :
  NoDup l.*1 →
  ∀ o, (∀ k, k ∈ l.*1 → k ∉ o.*1) →
    foldl (λ acc kv, js_set kv.1 kv.2 acc) o l
    ≡ₚ o ++ filter (λ kv, kv.1 ≠ "__proto__") l.
Proof.
  induction l as [| [k v] l IH]; intros Hnd o Hfresh; cbn [foldl].
  - by rewrite filter_nil, app_nil_r.
  - cbn in Hnd. apply NoDup_cons in Hnd as [Hk Hnd].
    assert (Hko : k ∉ o.*1) by (apply Hfresh; cbn; apply list_elem_of_here).
    rewrite IH; [| done |].
    + cbn [fst snd]. rewrite (js_set_fresh k v o Hko), filter_cons. cbn [fst].
      destruct (decide (k = "__proto__")) as [-> | Hne].
      * by rewrite decide_False by (intros H; by apply H).
      * rewrite decide_True by done. cbn.
        by rewrite Permutation_middle.
    + intros k' Hk'. cbn [fst snd].
      rewrite (js_set_fresh k v o Hko), fmap_app, not_elem_of_app. split.
      * destruct (decide (k = "__proto__")); cbn.
        -- apply not_elem_of_nil.
        -- rewrite list_elem_of_singleton. by intros ->.
      * apply Hfresh. cbn. by apply list_elem_of_further.
Qed.

Lemma keys_as_pairs (prefix : string) (m : gmap string V) :
  keys prefix m = (filter (λ kv, starts_with prefix kv.1 = true) (map_to_list m)).*1.
Proof.
  unfold keys. induction (map_to_list m) as [| [k v] l IH]; [done |].
  rewrite fmap_cons, !filter_cons. cbn [fst].
  destruct (decide (starts_with prefix k = true)); [| done].
  by rewrite fmap_cons, IH.
Qed.

Lemma enumerate_perm (prefix : string) (m : gmap string V) :
  enumerate prefix m
  ≡ₚ filter (λ kv, kv.1 ≠ "__proto__") (records_under prefix m).
Proof.
  unfold enumerate, records_under. rewrite keys_as_pairs.
  set (l := filter _ (map_to_list m)).
  assert (Hl : ∀ kv, kv ∈ l → starts_with prefix kv.1 = true ∧ m !! kv.1 = Some kv.2).
  { intros [k v] Hin. apply list_elem_of_filter in Hin as [Hp Hin].
    split; [done |]. by apply elem_of_map_to_list. }
  assert (Hnd : NoDup l.*1).
  { eapply NoDup_fmap_fst.
    - intros k v1 v2 H1 H2. apply Hl in H1 as [_ H1], H2 as [_ H2]. cbn in *. congruence.
    - apply NoDup_filter, NoDup_map_to_list. }
  clearbody l.
  assert (Hfold : ∀ o,
    foldl (λ stats key,
             match m !! key with
             | Some v => js_set (replace prefix "" key) v stats
             | None => stats
             end) o l.*1
    = foldl (λ acc kv, js_set kv.1 kv.2 acc) o
        ((λ kv, (string_drop (String.length prefix) kv.1, kv.2)) <$> l)).
  { induction l as [| [k v] l IH]; intros o; [done |].
    cbn [fmap list_fmap foldl fst snd].
    destruct (Hl (k, v)) as [Hp Hv]; [apply list_elem_of_here |]. cbn in Hp, Hv.
    rewrite Hv, (replace_prefix _ _ Hp).
    apply IH.
    - intros kv Hin. apply Hl. by apply list_elem_of_further.
    - cbn in Hnd. by apply NoDup_cons in Hnd as [_ Hnd]. }
  rewrite Hfold.
  rewrite js_build_perm; [done | | intros k _; apply not_elem_of_nil].
  rewrite <- list_fmap_compose.
  apply (NoDup_fmap_2_strong _ l).
  - intros [k1 v1] [k2 v2] H1 H2 Heq. cbn in Heq.
    destruct (Hl _ H1) as [Hp1 Hv1], (Hl _ H2) as [Hp2 Hv2]. cbn in *.
    assert (k1 = k2) as ->.
    { rewrite (starts_with_split _ _ Hp1), (starts_with_split _ _ Hp2). by rewrite Heq. }
    congruence.
  - eapply NoDup_fmap_1. exact Hnd.
Qed.
End JsObjectFacts.

Lemma getStatsForDate_enumerate (d : string) (db : Redis) :
  getStatsForDate d db = enumerate (STATS_PREFIX +:+ d +:+ ":") (warmup_stats db).
Proof. reflexivity. Qed.

Lemma getPostStatsForDate_enumerate (d : string) (db : Redis) :
  getPostStatsForDate d db = enumerate (POST_STATS_PREFIX +:+ d +:+ ":") (post_stats db).
Proof. reflexivity. Qed.

Lemma sum_of_perm {V : Type} (f : V → Z) (l1 l2 : list (string * V)) :
  l1 ≡ₚ l2 → sum_of f l1 = sum_of f l2.
Proof.
  unfold sum_of. induction 1 as [| x l1 l2 _ IH | x y l | l1 l2 l3 _ IH1 _ IH2];
    cbn [foldr]; lia.
Qed.

(** The loop of the post query: totals and personas after all entries. *)
Lemma posts_loop (entries : list (string * PostStats.t)) (t0 : Totals.t)
    (ps0 : list PersonaPostStats.t) :
  foldl (λ acc entry,
           (ApiPosts.add_totals acc.1 entry.2,
            acc.2 ++ [ApiPosts.persona_entry entry.1 entry.2]))
        (t0, ps0) entries
  = (Totals.mk (Totals.scheduled t0 + sum_of PostStats.scheduled entries)
               (Totals.posted t0 + sum_of PostStats.posted entries)
               (Totals.failed t0 + sum_of PostStats.failed entries),
     ps0 ++ ((λ kv, ApiPosts.persona_entry kv.1 kv.2) <$> entries)).
Proof.
  revert t0 ps0. induction entries as [| [k r] entries IH]; intros t0 ps0.
  - cbn. destruct t0. by rewrite !Z.add_0_r, app_nil_r.
  - cbn [foldl]. rewrite IH. cbn [fst snd fmap list_fmap].
    unfold ApiPosts.add_totals, sum_of. cbn [foldr snd Totals.scheduled Totals.posted
      Totals.failed].
    rewrite <- app_assoc. cbn [app]. f_equal. f_equal; lia.
Qed.

Lemma ApiPosts_data_unfold (c : Clock) (db : Redis) :
  ApiPosts.data c db
  = PostsData.mk (today c)
      (Totals.mk (sum_of PostStats.scheduled (getTodayPostStats c db))
                 (sum_of PostStats.posted (getTodayPostStats c db))
                 (sum_of PostStats.failed (getTodayPostStats c db)))
      (js_sort ApiPosts.by_activity
         ((λ kv, ApiPosts.persona_entry kv.1 kv.2) <$> getTodayPostStats c db))
      (take 50 (post_log db)).
Proof.
  unfold ApiPosts.data. rewrite posts_loop. cbn [Totals.scheduled Totals.posted
    Totals.failed app]. rewrite !Z.add_0_l. f_equal.
  unfold getRecentPostEvents, lrange. fold (post_log db).
  by rewrite range_from_head.
Qed.

Lemma ApiStats_data_unfold (c : Clock) (db : Redis) :
  ApiStats.data c db
  = DashboardData.mk (today c) (getTodayStats c db) (take 50 (warmup_log db)).
Proof.
  unfold ApiStats.data. f_equal.
  unfold getRecentEvents, lrange. fold (warmup_log db).
  by rewrite range_from_head.
Qed.

Lemma activity_persona_entry (id : string) (r : PostStats.t) :
  activity (ApiPosts.persona_entry id r)
  = PostStats.posted r + PostStats.scheduled r + PostStats.failed r.
Proof. reflexivity. Qed.

(** C5, as stated, fails on the warmup stream: its today query answers with
    the mapping of the records as enumerated, here the profile with one
    like before the profile with two. *)
Lemma warmup_query_not_by_activity :
  ¬ descending ((λ kv, profile_activity kv.2)
                  <$> DashboardData.profiles (ApiStats.data scenario_clock two_profiles)).
Proof.
  assert (H : (λ kv : string * ProfileStats.t, profile_activity kv.2)
                <$> DashboardData.profiles (ApiStats.data scenario_clock two_profiles)
              = [1; 2]) by (vm_compute; reflexivity).
  rewrite H. intros Hs. apply StronglySorted_inv in Hs as [_ Hall].
  apply Forall_cons in Hall as [Hle _]. lia.
Qed.

(** C5, amended. The today query of the post stream answers with the
    personas in descending order of total activity (posted + scheduled +
    failed of the record of the persona); the array holds one entry per
    enumerated record, and entries of equal activity keep the order of the
    enumeration. The today query of the warmup stream answers with the
    mapping of the records as enumerated, in no order of activity. *)
Theorem post_query_by_activity :
  ∀ (c : Clock) (db : Redis),
    descending (activity <$> PostsData.personas (ApiPosts.data c db))
    ∧ PostsData.personas (ApiPosts.data c db)
      ≡ₚ (λ kv, ApiPosts.persona_entry kv.1 kv.2) <$> getTodayPostStats c db
    ∧ (∀ t : Z,
         filter (λ p, activity p = t) (PostsData.personas (ApiPosts.data c db))
         = filter (λ p, activity p = t)
             ((λ kv, ApiPosts.persona_entry kv.1 kv.2) <$> getTodayPostStats c db))
    ∧ (∀ (id : string) (r : PostStats.t),
         activity (ApiPosts.persona_entry id r)
         = PostStats.posted r + PostStats.scheduled r + PostStats.failed r)
    ∧ getTodayPostStats c db ≡ₚ listed_personas (today c) db
    ∧ DashboardData.profiles (ApiStats.data c db) = getTodayStats c db
    ∧ getTodayStats c db ≡ₚ listed_profiles (today c) db.
Proof.
  intros c db. rewrite ApiPosts_data_unfold, ApiStats_data_unfold.
  cbn [PostsData.personas DashboardData.profiles].
  split; [| split; [| split; [| split; [| split; [| split]]]]].
  - apply (StronglySorted_fmap activity (before activity)); [by unfold before |].
    apply (js_sort_sorted activity), by_activity_key.
  - apply js_sort_perm.
  - intros t. apply (js_sort_stable activity), by_activity_key.
  - apply activity_persona_entry.
  - unfold getTodayPostStats. rewrite getPostStatsForDate_enumerate. apply enumerate_perm.
  - done.
  - unfold getTodayStats. rewrite getStatsForDate_enumerate. apply enumerate_perm.
Qed.

(** * Further properties of the store and of its routes *)

(** ** One record per date and entity *)

Lemma append_assoc (a b c : string) : (a +:+ b) +:+ c = a +:+ (b +:+ c).
Proof.
  induction a as [| x a IH]; [done |].
  change (String x (a +:+ b) +:+ c = String x (a +:+ (b +:+ c))).
  change (String x ((a +:+ b) +:+ c) = String x (a +:+ (b +:+ c))). by rewrite IH.
Qed.

Lemma append_inj_length (x x' y y' : string) :
  String.length x = String.length x' → x +:+ y = x' +:+ y' → x = x' ∧ y = y'.
Proof.
  revert x'. induction x as [| a x IH]; intros [| a' x'] Hlen Heq;
    try discriminate Hlen; [done |].
  change (String a (x +:+ y) = String a' (x' +:+ y')) in Heq.
  injection Heq as -> Heq. injection Hlen as Hlen.
  destruct (IH x' Hlen Heq) as [-> ->]. done.
Qed.

Lemma statsKey_prefix (d id : string) :
  statsKey d (Some id) = (STATS_PREFIX +:+ d +:+ ":") +:+ id.
Proof. unfold statsKey. cbn [template]. by rewrite !append_assoc. Qed.

Lemma postStatsKey_prefix (d id : string) :
  postStatsKey d (Some id) = (POST_STATS_PREFIX +:+ d +:+ ":") +:+ id.
Proof. unfold postStatsKey. cbn [template]. by rewrite !append_assoc. Qed.

Lemma statsKey_inj (d d' : string) (id id' : option string) :
  String.length d = String.length d' →
  statsKey d id = statsKey d' id' → d = d' ∧ template id = template id'.
Proof.
  unfold statsKey. intros Hlen Heq. apply (inj (String.app STATS_PREFIX)) in Heq.
  destruct (append_inj_length _ _ _ _ Hlen Heq) as [-> Heq'].
  split; [done |]. by apply (inj (String.app ":")) in Heq'.
Qed.

Lemma postStatsKey_inj (d d' : string) (id id' : option string) :
  String.length d = String.length d' →
  postStatsKey d id = postStatsKey d' id' → d = d' ∧ template id = template id'.
Proof.
  unfold postStatsKey. intros Hlen Heq. apply (inj (String.app POST_STATS_PREFIX)) in Heq.
  destruct (append_inj_length _ _ _ _ Hlen Heq) as [-> Heq'].
  split; [done |]. by apply (inj (String.app ":")) in Heq'.
Qed.

(** *** The keys of the two streams *)



(** X2. An event changes the counter record of its own date and entity
    only: for dates written with the same number of characters, as ISO
    dates are, the record of any other date or of any other entity is after
    the request what it was before, on both streams. *)
Theorem other_records_untouched :
  (∀ (c : Clock) (e : ActivityEvent.t) (db : Redis) (d id : string),
     String.length d = String.length (today c) →
     d ≠ today c ∨ Some id ≠ ActivityEvent.profileId e →
     profile_record d id (snd (ApiLog.POST c e db)) = profile_record d id db)
  ∧ (∀ (c : Clock) (e : PostEvent.t) (db : Redis) (d id : string),
       String.length d = String.length (today c) →
       d ≠ today c ∨ Some id ≠ PostEvent.personaId e →
       post_record d id (snd (ApiPostsLog.POST c e db)) = post_record d id db).
Proof.
  split.
  - intros c e db d id Hlen Hne. rewrite ApiLog_POST_cases.
    destruct (valid_event e) eqn:Hv; cbn [snd]; [| done].
    rewrite addEvent_unfold. unfold profile_record. cbn [warmup_stats].
    apply lookup_insert_ne. intros Heq. symmetry in Heq.
    apply statsKey_inj in Heq as [Hd Hid]; [| done].
    unfold valid_event in Hv. apply andb_true_iff in Hv as [Hp _].
    destruct (ActivityEvent.profileId e) as [pid |]; [| done].
    cbn in Hid. destruct Hne as [Hne | Hne]; [done | congruence].
  - intros c e db d id Hlen Hne. rewrite ApiPostsLog_POST_cases.
    destruct (valid_post_event e) eqn:Hv; cbn [snd]; [| done].
    rewrite addPostEvent_unfold. unfold post_record. cbn [post_stats].
    apply lookup_insert_ne. intros Heq. symmetry in Heq.
    apply postStatsKey_inj in Heq as [Hd Hid]; [| done].
    unfold valid_post_event in Hv. apply andb_true_iff in Hv as [Hv _].
    apply andb_true_iff in Hv as [Hp _].
    destruct (PostEvent.personaId e) as [pid |]; [| done].
    cbn in Hid. destruct Hne as [Hne | Hne]; [done | congruence].
Qed.

Lemma other_records_untouched_witness :
  String.length "2026-11-01" = String.length (today scenario_clock)
  ∧ ("2026-11-01" ≠ today scenario_clock
     ∨ Some "green" ≠ ActivityEvent.profileId (scenario_event "green" "like"))
  ∧ profile_record "2026-11-01" "green"
      (snd (ApiLog.POST scenario_clock (scenario_event "green" "like")
              (addEvent (mkClock 1793491200000 "2026-11-01")
                        (scenario_event "green" "like") empty_redis)))
    = profile_record "2026-11-01" "green"
        (addEvent (mkClock 1793491200000 "2026-11-01")
                  (scenario_event "green" "like") empty_redis).
Proof.
  assert (H1 : String.length "2026-11-01" = String.length (today scenario_clock))
    by reflexivity.
  assert (H2 : "2026-11-01" ≠ today scenario_clock
               ∨ Some "green" ≠ ActivityEvent.profileId (scenario_event "green" "like"))
    by (left; discriminate).
  split; [exact H1 |]. split; [exact H2 |].
  exact (proj1 other_records_untouched scenario_clock _ _ "2026-11-01" "green" H1 H2).
Defined.

(** ** Display names *)

Lemma username_update_stats (e : ActivityEvent.t) (s : ProfileStats.t) :
  ProfileStats.username (update_stats e s)
  = if truthy (ActivityEvent.username e) then ActivityEvent.username e
    else ProfileStats.username s.
Proof.
  unfold update_stats, apply_action.
  destruct e as [ts pid un a dt ra]. cbn [ActivityEvent.action ActivityEvent.timestamp
    ActivityEvent.username].
  destruct s as [l b se ex v ss la u].
  destruct (truthy un); by_action a.
Qed.

Lemma handle_update_post_stats (e : PostEvent.t) (s : PostStats.t) :
  PostStats.handle (update_post_stats e s)
  = if truthy (PostEvent.handle e) then PostEvent.handle e else PostStats.handle s.
Proof.
  unfold update_post_stats, apply_post_action.
  destruct e as [ts pid h a dt ra]. cbn [PostEvent.action PostEvent.timestamp
    PostEvent.handle].
  destruct s as [sc po fa la u].
  destruct (truthy h);
    cbn [PostStats.scheduled PostStats.incr_posted PostStats.incr_failed
         PostStats.set_lastActivity PostStats.set_handle];
    destruct (0 <? sc); by_action a.
Qed.

Lemma username_replay (r0 : ProfileStats.t) (evs : list (Clock * ActivityEvent.t)) :
  ProfileStats.username (replay r0 evs) = last_username (ProfileStats.username r0) evs.
Proof.
  revert r0. induction evs as [| ce evs IH]; intros r0; [done |].
  unfold replay, last_username in *. cbn [foldl].
  by rewrite IH, username_update_stats.
Qed.

Lemma handle_replay_posts (r0 : PostStats.t) (evs : list (Clock * PostEvent.t)) :
  PostStats.handle (replay_posts r0 evs) = last_handle (PostStats.handle r0) evs.
Proof.
  revert r0. induction evs as [| ce evs IH]; intros r0; [done |].
  unfold replay_posts, last_handle in *. cbn [foldl].
  by rewrite IH, handle_update_post_stats.
Qed.

(** X3. The display name of a counter record is sticky. Replaying events
    that carry no name, or an empty one, keeps the name of the record;
    after a sequence that ends with an event carrying a non-empty name the
    record has that name. The same holds for the handle of a post record. *)
Theorem display_name_is_sticky :
  (∀ (r0 : ProfileStats.t) (evs : list (Clock * ActivityEvent.t)),
     Forall (λ ce, missing_or_empty (ActivityEvent.username ce.2)) evs →
     ProfileStats.username (replay r0 evs) = ProfileStats.username r0)
  ∧ (∀ (r0 : ProfileStats.t) (evs : list (Clock * ActivityEvent.t))
       (ce : Clock * ActivityEvent.t) (name : string),
       ActivityEvent.username ce.2 = Some name → name ≠ "" →
       ProfileStats.username (replay r0 (evs ++ [ce])) = Some name)
  ∧ (∀ (r0 : PostStats.t) (evs : list (Clock * PostEvent.t)),
       Forall (λ ce, missing_or_empty (PostEvent.handle ce.2)) evs →
       PostStats.handle (replay_posts r0 evs) = PostStats.handle r0)
  ∧ (∀ (r0 : PostStats.t) (evs : list (Clock * PostEvent.t))
       (ce : Clock * PostEvent.t) (name : string),
       PostEvent.handle ce.2 = Some name → name ≠ "" →
       PostStats.handle (replay_posts r0 (evs ++ [ce])) = Some name).
Proof.
  split; [| split; [| split]].
  - intros r0 evs Hall. rewrite username_replay. unfold last_username.
    generalize (ProfileStats.username r0) as u.
    induction Hall as [| ce evs Hce _ IH]; intros u; [done |].
    cbn [foldl]. by rewrite (truthy_false _ Hce).
  - intros r0 evs ce name Hn Hne. rewrite username_replay. unfold last_username.
    rewrite foldl_app. cbn [foldl]. by rewrite Hn, truthy_Some.
  - intros r0 evs Hall. rewrite handle_replay_posts. unfold last_handle.
    generalize (PostStats.handle r0) as u.
    induction Hall as [| ce evs Hce _ IH]; intros u; [done |].
    cbn [foldl]. by rewrite (truthy_false _ Hce).
  - intros r0 evs ce name Hn Hne. rewrite handle_replay_posts. unfold last_handle.
    rewrite foldl_app. cbn [foldl]. by rewrite Hn, truthy_Some.
Qed.

Lemma display_name_is_sticky_witness :
  Forall (λ ce : Clock * ActivityEvent.t, missing_or_empty (ActivityEvent.username ce.2))
    [(scenario_clock, scenario_event "green" "like");
     (scenario_clock, scenario_event "green" "scroll")]
  ∧ ProfileStats.username
      (replay (ProfileStats.mk 0 0 0 0 0 0 None (Some "@green"))
              [(scenario_clock, scenario_event "green" "like");
               (scenario_clock, scenario_event "green" "scroll")])
    = Some "@green".
Proof.
  assert (H : Forall (λ ce : Clock * ActivityEvent.t,
                        missing_or_empty (ActivityEvent.username ce.2))
                [(scenario_clock, scenario_event "green" "like");
                 (scenario_clock, scenario_event "green" "scroll")])
    by (repeat constructor; left; reflexivity).
  split; [exact H |].
  exact (proj1 display_name_is_sticky
           (ProfileStats.mk 0 0 0 0 0 0 None (Some "@green")) _ H).
Defined.

(** ** What ingestion never does to a record *)

Lemma counters_grow (e : ActivityEvent.t) (s : ProfileStats.t) :
  Forall2 Z.le (counters s) (counters (update_stats e s)).
Proof.
  rewrite counters_update_stats. unfold delta, counters.
  repeat (constructor; [case_match; lia |]). constructor.
Qed.

Lemma Forall2_le_refl (l : list Z) : Forall2 Z.le l l.
Proof. induction l; constructor; [lia | done]. Qed.

Lemma posted_failed_grow (e : PostEvent.t) (s : PostStats.t) :
  PostStats.posted s ≤ PostStats.posted (update_post_stats e s)
  ∧ PostStats.failed s ≤ PostStats.failed (update_post_stats e s).
Proof.
  unfold update_post_stats, apply_post_action.
  destruct e as [ts pid h a dt ra]. cbn [PostEvent.action PostEvent.timestamp
    PostEvent.handle].
  destruct s as [sc po fa la u].
  destruct (truthy h);
    cbn [PostStats.scheduled PostStats.incr_posted PostStats.incr_failed
         PostStats.set_lastActivity PostStats.set_handle];
    destruct (0 <? sc); destruct a as [a |]; unfold strict_eq;
    repeat match goal with
      | |- context [String.eqb a ?lit] =>
          destruct (String.eqb_spec a lit) as [-> | ?]
      end;
    cbv -[Z.add Z.sub Z.le]; lia.
Qed.

(** X4. An ingestion request, accepted or not, removes no counter record
    and lowers no counter: every record of the warmup stream is still there
    after the request with each of its six counters at least what it was,
    and every record of the post stream is still there with [posted] and
    [failed] at least what they were. *)
Theorem ingestion_never_lowers :
  (∀ (c : Clock) (e : ActivityEvent.t) (db : Redis) (key : string) (r : ProfileStats.t),
     warmup_stats db !! key = Some r →
     ∃ r' : ProfileStats.t,
       warmup_stats (snd (ApiLog.POST c e db)) !! key = Some r'
       ∧ Forall2 Z.le (counters r) (counters r'))
  ∧ (∀ (c : Clock) (e : PostEvent.t) (db : Redis) (key : string) (r : PostStats.t),
       post_stats db !! key = Some r →
       ∃ r' : PostStats.t,
         post_stats (snd (ApiPostsLog.POST c e db)) !! key = Some r'
         ∧ PostStats.posted r ≤ PostStats.posted r'
         ∧ PostStats.failed r ≤ PostStats.failed r').
Proof.
  split.
  - intros c e db key r Hr. rewrite ApiLog_POST_cases.
    destruct (valid_event e); cbn [snd];
      [| exists r; split; [done | apply Forall2_le_refl]].
    rewrite addEvent_unfold. cbn [warmup_stats].
    destruct (decide (statsKey (today c) (ActivityEvent.profileId e) = key)) as [<- | Hne].
    + rewrite lookup_insert_eq, Hr. eexists. split; [done |]. apply counters_grow.
    + rewrite lookup_insert_ne by done. exists r. split; [done | apply Forall2_le_refl].
  - intros c e db key r Hr. rewrite ApiPostsLog_POST_cases.
    destruct (valid_post_event e); cbn [snd]; [| exists r; repeat split; (done || lia)].
    rewrite addPostEvent_unfold. cbn [post_stats].
    destruct (decide (postStatsKey (today c) (PostEvent.personaId e) = key)) as [<- | Hne].
    + rewrite lookup_insert_eq, Hr. eexists. split; [done |]. apply posted_failed_grow.
    + rewrite lookup_insert_ne by done. exists r. repeat split; (done || lia).
Qed.

Lemma ingestion_never_lowers_witness :
  warmup_stats two_profiles !! "warmup:stats:2026-11-02:2"
  = Some (ProfileStats.mk 2 0 0 0 0 0 (Some 1793577599000) None)
  ∧ ∃ r' : ProfileStats.t,
      warmup_stats (snd (ApiLog.POST scenario_clock (scenario_event "2" "bookmark")
                           two_profiles)) !! "warmup:stats:2026-11-02:2" = Some r'
      ∧ Forall2 Z.le [2; 0; 0; 0; 0; 0] (counters r').
Proof.
  assert (H : warmup_stats two_profiles !! "warmup:stats:2026-11-02:2"
              = Some (ProfileStats.mk 2 0 0 0 0 0 (Some 1793577599000) None))
    by (vm_compute; reflexivity).
  split; [exact H |].
  exact (proj1 ingestion_never_lowers scenario_clock (scenario_event "2" "bookmark")
           two_profiles _ _ H).
Defined.

(** ** Counts of the post stream *)

Lemma count_posts_cons (a : string) (ce : Clock * PostEvent.t)
    (evs : list (Clock * PostEvent.t)) :
  count_posts a (ce :: evs)
  = (if strict_eq (PostEvent.action ce.2) a then 1 else 0) + count_posts a evs.
Proof.
  unfold count_posts. rewrite filter_cons.
  destruct (decide _) as [-> | Hf]; [cbn [length]; lia |].
  apply not_true_is_false in Hf as ->. lia.
Qed.

Lemma post_step_bounds (e : PostEvent.t) (s : PostStats.t) :
  PostStats.posted (update_post_stats e s)
  = PostStats.posted s + (if strict_eq (PostEvent.action e) "post_published" then 1 else 0)
  ∧ PostStats.failed (update_post_stats e s)
    = PostStats.failed s + (if strict_eq (PostEvent.action e) "post_failed" then 1 else 0)
  ∧ PostStats.scheduled (update_post_stats e s)
    ≤ PostStats.scheduled s
      + (if strict_eq (PostEvent.action e) "post_scheduled" then 1 else 0)
  ∧ PostStats.scheduled s
    + (if strict_eq (PostEvent.action e) "post_scheduled" then 1 else 0)
    - (if strict_eq (PostEvent.action e) "post_published" then 1 else 0)
    - (if strict_eq (PostEvent.action e) "post_failed" then 1 else 0)
    ≤ PostStats.scheduled (update_post_stats e s).
Proof.
  unfold update_post_stats, apply_post_action.
  destruct e as [ts pid h a dt ra]. cbn [PostEvent.action PostEvent.timestamp
    PostEvent.handle].
  destruct s as [sc po fa la u].
  destruct (truthy h);
    cbn [PostStats.scheduled PostStats.incr_posted PostStats.incr_failed
         PostStats.set_lastActivity PostStats.set_handle];
    destruct (Z.ltb_spec 0 sc); destruct a as [a |]; unfold strict_eq;
    repeat match goal with
      | |- context [String.eqb a ?lit] =>
          destruct (String.eqb_spec a lit) as [-> | ?]
      end;
    cbv -[Z.add Z.sub Z.le]; lia.
Qed.

(** X5. Replaying any sequence of post events on a record, [posted] grows
    by the number of post_published events and [failed] by the number of
    post_failed events, exactly; [scheduled] grows by at most the number of
    post_scheduled events and falls by at most the number of terminal
    events: it lies between previous + scheduled - published - failed and
    previous + scheduled. *)
Theorem post_counts_bounds :
  ∀ (r0 : PostStats.t) (evs : list (Clock * PostEvent.t)),
    PostStats.posted (replay_posts r0 evs)
    = PostStats.posted r0 + count_posts "post_published" evs
    ∧ PostStats.failed (replay_posts r0 evs)
      = PostStats.failed r0 + count_posts "post_failed" evs
    ∧ PostStats.scheduled (replay_posts r0 evs)
      ≤ PostStats.scheduled r0 + count_posts "post_scheduled" evs
    ∧ PostStats.scheduled r0 + count_posts "post_scheduled" evs
      - count_posts "post_published" evs - count_posts "post_failed" evs
      ≤ PostStats.scheduled (replay_posts r0 evs).
Proof.
  intros r0 evs. revert r0. induction evs as [| ce evs IH]; intros r0.
  - unfold replay_posts, count_posts. cbn. lia.
  - unfold replay_posts in *. cbn [foldl]. rewrite !count_posts_cons.
    destruct (IH (update_post_stats ce.2 r0)) as (Hp & Hf & Hu & Hl).
    destruct (post_step_bounds ce.2 r0) as (Hp' & Hf' & Hu' & Hl'). lia.
Qed.

(** ** Reading the log *)

Lemma range_to_limit {V : Type} (limit : Z) (l : list V) :
  range 0 (limit - 1) l
  = if 1 <=? limit then take (Z.to_nat limit) l
    else take (Z.to_nat (Z.of_nat (length l) + limit)) l.
Proof.
  destruct (Z.leb_spec 1 limit) as [Hle | Hlt]; [by apply range_from_head |].
  unfold range, from_end.
  assert (Hs : (0 <? 0) = false) by reflexivity. rewrite Hs.
  assert (Hn : (limit - 1 <? 0) = true) by lia. rewrite Hn.
  rewrite Z.max_id.
  destruct (Z.ltb_spec (Z.min (Z.of_nat (length l) - 1)
                              (Z.of_nat (length l) + (limit - 1))) 0) as [Hneg | Hpos].
  - replace (Z.to_nat (Z.of_nat (length l) + limit)) with 0%nat by lia.
    by rewrite take_0.
  - change (Z.to_nat 0) with 0%nat. rewrite drop_0. f_equal. lia.
Qed.

Lemma getRecentEvents_take (limit : Z) (db : Redis) :
  1 ≤ limit → getRecentEvents limit db = take (Z.to_nat limit) (warmup_log db).
Proof.
  intros H. unfold getRecentEvents, lrange. fold (warmup_log db).
  by apply range_from_head.
Qed.

(** X6. [getRecentEvents(limit)] and [getRecentPostEvents(limit)] return
    the first [limit] entries of the log, fewer when the log is shorter, for
    a limit of 1 or more. A limit of 0 returns the whole log, and a negative
    limit -k returns the log without its k oldest entries. *)
Theorem recent_events_window :
  ∀ (limit : Z) (db : Redis),
    (1 ≤ limit →
     getRecentEvents limit db = take (Z.to_nat limit) (warmup_log db)
     ∧ getRecentPostEvents limit db = take (Z.to_nat limit) (post_log db))
    ∧ (limit ≤ 0 →
       getRecentEvents limit db
       = take (Z.to_nat (Z.of_nat (length (warmup_log db)) + limit)) (warmup_log db)
       ∧ getRecentPostEvents limit db
         = take (Z.to_nat (Z.of_nat (length (post_log db)) + limit)) (post_log db))
    ∧ getRecentEvents 0 db = warmup_log db
    ∧ getRecentPostEvents 0 db = post_log db.
Proof.
  intros limit db.
  unfold getRecentEvents, getRecentPostEvents, lrange.
  fold (warmup_log db). fold (post_log db).
  split; [| split; [| split]].
  - intros H. rewrite !(range_to_limit limit). by apply Z.leb_le in H as ->.
  - intros H. rewrite !(range_to_limit limit).
    assert ((1 <=? limit) = false) as -> by lia. done.
  - rewrite (range_to_limit 0). cbn [Z.leb Z.compare]. apply take_ge. lia.
  - rewrite (range_to_limit 0). cbn [Z.leb Z.compare]. apply take_ge. lia.
Qed.

Lemma recent_events_window_witness :
  1 ≤ 2
  ∧ getRecentEvents 2 two_profiles
    = [ActivityEvent.set_receivedAt 1793577600000 (scenario_event "1" "like");
       ActivityEvent.set_receivedAt 1793577600000 (scenario_event "2" "like")].
Proof.
  assert (H : 1 ≤ 2) by lia.
  split; [exact H |].
  rewrite (proj1 (proj1 (recent_events_window 2 two_profiles) H)).
  vm_compute. reflexivity.
Defined.

Lemma take_app_take {V : Type} (n k : nat) (l1 l2 : list V) :
  (n ≤ k)%nat → take n (l1 ++ take k l2) = take n (l1 ++ l2).
Proof.
  intros Hnk. rewrite !take_app, take_take. do 2 f_equal. lia.
Qed.

Lemma submit_all_log (evs : list (Clock * ActivityEvent.t)) (db : Redis) :
  (length (warmup_log db) ≤ 500)%nat →
  warmup_log (submit_all evs db)
  = take 500 (reverse (stamped (filter (λ ce, valid_event ce.2 = true) evs))
              ++ warmup_log db).
Proof.
  revert db. induction evs as [| ce evs IH]; intros db Hlen.
  - cbn. by rewrite take_ge.
  - unfold submit_all in *. cbn [foldl]. rewrite ApiLog_POST_cases, filter_cons.
    destruct (valid_event ce.2) eqn:Hv; cbn [snd].
    + rewrite decide_True by done. rewrite IH.
      * rewrite warmup_log_addEvent. change (Z.to_nat MAX_EVENTS) with 500%nat.
        rewrite take_app_take by done.
        unfold stamped. rewrite fmap_cons, reverse_cons, <- app_assoc. done.
      * rewrite warmup_log_addEvent, length_take. unfold MAX_EVENTS. lia.
    + rewrite decide_False by done. by apply IH.
Qed.

(** X7. After a burst of events the log of the warmup stream holds, newest
    first, the accepted events of the burst in reverse order of arrival,
    each stamped with the clock of its request, followed by the entries it
    held before, the whole cut to 500 entries; rejected events leave no
    entry. *)
Theorem log_after_burst :
  ∀ (evs : list (Clock * ActivityEvent.t)) (db : Redis),
    (length (warmup_log db) ≤ 500)%nat →
    warmup_log (submit_all evs db)
    = take 500 (reverse (stamped (filter (λ ce, valid_event ce.2 = true) evs))
                ++ warmup_log db)
    ∧ length (warmup_log (submit_all evs db))
      = (500 `min` (length (filter (λ ce, valid_event ce.2 = true) evs)
                    + length (warmup_log db)))%nat.
Proof.
  intros evs db Hlen. rewrite submit_all_log by done. split; [done |].
  unfold stamped. by rewrite length_take, length_app, length_reverse, length_fmap.
Qed.

Lemma log_after_burst_witness :
  (length (warmup_log empty_redis) ≤ 500)%nat
  ∧ warmup_log
      (submit_all [(mkClock 10 "2026-11-02", scenario_event "green" "like");
                   (mkClock 20 "2026-11-02", scenario_event "" "like");
                   (mkClock 30 "2026-11-02", scenario_event "red" "scroll")]
                  empty_redis)
    = [ActivityEvent.set_receivedAt 30 (scenario_event "red" "scroll");
       ActivityEvent.set_receivedAt 10 (scenario_event "green" "like")].
Proof.
  assert (H : (length (warmup_log empty_redis) ≤ 500)%nat) by (vm_compute; lia).
  split; [exact H |].
  rewrite (proj1 (log_after_burst _ empty_redis H)). vm_compute. reflexivity.
Defined.

(** X8. An accepted event is found by [getRecentEvents(limit)] at the
    position that equals the number of events accepted after it, as long
    as that number is below the limit and below the cap of 500: with no
    later event it is the first entry. *)
Theorem submitted_event_is_recent :
  ∀ (c : Clock) (e : ActivityEvent.t) (later : list (Clock * ActivityEvent.t))
    (db : Redis) (limit : Z),
    valid_event e = true →
    Forall (λ ce, valid_event ce.2 = true) later →
    Z.of_nat (length later) < limit →
    Z.of_nat (length later) < 500 →
    getRecentEvents limit (submit_all later (snd (ApiLog.POST c e db))) !! length later
    = Some (ActivityEvent.set_receivedAt (now c) e).
Proof.
  intros c e later db limit Hv Hall Hlim Hcap.
  rewrite getRecentEvents_take by lia.
  rewrite lookup_take_lt by lia.
  rewrite submit_all_log.
  - rewrite lookup_take_lt by lia.
    assert (Hf : filter (λ ce : Clock * ActivityEvent.t, valid_event ce.2 = true) later
                 = later).
    { clear Hlim Hcap. induction Hall as [| ce l Hce _ IH]; [done |].
      by rewrite filter_cons_True, IH. }
    rewrite Hf, ApiLog_POST_cases, Hv. cbn [snd]. rewrite warmup_log_addEvent.
    change (Z.to_nat MAX_EVENTS) with 500%nat.
    rewrite lookup_app_r; unfold stamped; rewrite length_reverse, length_fmap; [| lia].
    by rewrite Nat.sub_diag.
  - rewrite ApiLog_POST_cases, Hv. cbn [snd].
    rewrite warmup_log_addEvent, length_take. unfold MAX_EVENTS. lia.
Qed.

Lemma submitted_event_is_recent_witness :
  valid_event (scenario_event "green" "like") = true
  ∧ Forall (λ ce : Clock * ActivityEvent.t, valid_event ce.2 = true)
      [(scenario_clock, scenario_event "red" "scroll")]
  ∧ Z.of_nat (length [(scenario_clock, scenario_event "red" "scroll")]) < 50
  ∧ Z.of_nat (length [(scenario_clock, scenario_event "red" "scroll")]) < 500
  ∧ getRecentEvents 50
      (submit_all [(scenario_clock, scenario_event "red" "scroll")]
         (snd (ApiLog.POST (mkClock 7 "2026-11-02") (scenario_event "green" "like")
                 empty_redis))) !! 1%nat
    = Some (ActivityEvent.set_receivedAt 7 (scenario_event "green" "like")).
Proof.
  assert (H1 : valid_event (scenario_event "green" "like") = true) by reflexivity.
  assert (H2 : Forall (λ ce : Clock * ActivityEvent.t, valid_event ce.2 = true)
                 [(scenario_clock, scenario_event "red" "scroll")])
    by (repeat constructor).
  assert (H3 : Z.of_nat (length [(scenario_clock, scenario_event "red" "scroll")]) < 50)
    by (cbn; lia).
  assert (H4 : Z.of_nat (length [(scenario_clock, scenario_event "red" "scroll")]) < 500)
    by (cbn; lia).
  split; [exact H1 |]. split; [exact H2 |]. split; [exact H3 |]. split; [exact H4 |].
  exact (submitted_event_is_recent (mkClock 7 "2026-11-02") _ _ empty_redis 50
           H1 H2 H3 H4).
Defined.

(** ** The order of the log *)

Lemma descending_take (n : nat) (l : list Z) : descending l → descending (take n l).
Proof.
  unfold descending. intros H. revert n.
  induction H as [| x l Hs IH Hx]; intros [| n]; cbn [take]; try constructor.
  - apply IH.
  - by apply Forall_take.
Qed.

Lemma newest_first_weaken (t t' : Z) (log : list ActivityEvent.t) :
  t ≤ t' → newest_first t log → newest_first t' log.
Proof.
  intros Ht [Hall Hd]. split; [| done].
  eapply Forall_impl; [exact Hall |]. intros e He. cbn in He. lia.
Qed.

Lemma newest_first_POST (c : Clock) (e : ActivityEvent.t) (db : Redis) (t : Z) :
  t ≤ now c → newest_first t (warmup_log db) →
  newest_first (now c) (warmup_log (snd (ApiLog.POST c e db))).
Proof.
  intros Ht Hnf. rewrite ApiLog_POST_cases.
  destruct (valid_event e); cbn [snd]; [| by apply (newest_first_weaken t)].
  destruct (newest_first_weaken t (now c) _ Ht Hnf) as [Hall Hd].
  rewrite warmup_log_addEvent. split.
  - apply Forall_take. constructor; [unfold arrival; cbn; lia | done].
  - rewrite fmap_take. apply descending_take. rewrite fmap_cons.
    unfold descending. constructor; [done |].
    apply Forall_fmap. eapply Forall_impl; [exact Hall |]. done.
Qed.

(** X9. When the clock of the server never goes back from one request to
    the next, the log of the warmup stream stays ordered by arrival time,
    newest first: served from a log in that order whose entries arrived no
    later than the first request, any sequence of ingestion requests leaves
    a log whose [receivedAt] values descend. *)
Theorem log_is_newest_first :
  ∀ (evs : list (Clock * ActivityEvent.t)) (t : Z) (db : Redis),
    newest_first t (warmup_log db) → clock_monotone t evs →
    descending (arrival <$> warmup_log (submit_all evs db)).
Proof.
  intros evs t db Hnf Hmono.
  enough (∃ t', newest_first t' (warmup_log (submit_all evs db))) as [t' [_ Hd]]
    by done.
  revert t db Hnf Hmono. induction evs as [| ce evs IH]; intros t db Hnf Hmono.
  - by exists t.
  - destruct Hmono as [Ht Hmono]. unfold submit_all in *. cbn [foldl].
    apply (IH (now ce.1)); [| done]. by apply (newest_first_POST _ _ _ t).
Qed.

Lemma log_is_newest_first_witness :
  newest_first 0 (warmup_log empty_redis)
  ∧ clock_monotone 0
      [(mkClock 10 "2026-11-02", scenario_event "green" "like");
       (mkClock 10 "2026-11-02", scenario_event "red" "like");
       (mkClock 30 "2026-11-02", scenario_event "green" "scroll")]
  ∧ descending
      (arrival <$> warmup_log
         (submit_all [(mkClock 10 "2026-11-02", scenario_event "green" "like");
                      (mkClock 10 "2026-11-02", scenario_event "red" "like");
                      (mkClock 30 "2026-11-02", scenario_event "green" "scroll")]
                     empty_redis)).
Proof.
  assert (H1 : newest_first 0 (warmup_log empty_redis))
    by (split; [apply Forall_nil_2 | apply SSorted_nil]).
  assert (H2 : clock_monotone 0
                 [(mkClock 10 "2026-11-02", scenario_event "green" "like");
                  (mkClock 10 "2026-11-02", scenario_event "red" "like");
                  (mkClock 30 "2026-11-02", scenario_event "green" "scroll")])
    by (cbn; lia).
  split; [exact H1 |]. split; [exact H2 |].
  exact (log_is_newest_first _ 0 empty_redis H1 H2).
Defined.

(** ** The enumeration against the store *)

Lemma string_drop_app (p s : string) : string_drop (String.length p) (p +:+ s) = s.
Proof.
  pose proof (starts_with_split p (p +:+ s) (starts_with_app p s)) as H.
  by apply (inj (String.app p)) in H.
Qed.

Section RecordsUnder.
Context {V : Type}.
Implicit Types (m : gmap string V).

Lemma elem_of_records_under (prefix id : string) (v : V) m :
  (id, v) ∈ records_under prefix m ↔ m !! (prefix +:+ id) = Some v.
Proof.
  unfold records_under. rewrite list_elem_of_fmap. split.
  - intros ([k v'] & Heq & Hin). cbn in Heq. injection Heq as -> ->.
    apply list_elem_of_filter in Hin as [Hp Hin]. cbn in Hp.
    apply elem_of_map_to_list in Hin. by rewrite <- (starts_with_split _ _ Hp).
  - intros Hv. exists (prefix +:+ id, v). split.
    + cbn. by rewrite string_drop_app.
    + apply list_elem_of_filter. split; [apply starts_with_app |].
      by apply elem_of_map_to_list.
Qed.

Lemma NoDup_records_under (prefix : string) m : NoDup (records_under prefix m).*1.
Proof.
  unfold records_under. rewrite <- list_fmap_compose.
  apply NoDup_fmap_2_strong; [| apply NoDup_filter, NoDup_map_to_list].
  intros [k1 v1] [k2 v2] H1 H2 Heq. cbn in Heq.
  apply list_elem_of_filter in H1 as [Hp1 H1], H2 as [Hp2 H2]. cbn in Hp1, Hp2.
  apply elem_of_map_to_list in H1, H2.
  assert (k1 = k2) as ->.
  { rewrite (starts_with_split _ _ Hp1), (starts_with_split _ _ Hp2). by rewrite Heq. }
  congruence.
Qed.

Lemma enumerate_spec (prefix : string) m :
  NoDup (enumerate prefix m).*1
  ∧ ∀ id v, (id, v) ∈ enumerate prefix m
            ↔ id ≠ "__proto__" ∧ m !! (prefix +:+ id) = Some v.
Proof.
  pose proof (enumerate_perm prefix m) as Hperm. split.
  - rewrite Hperm. generalize (NoDup_records_under prefix m).
    generalize (records_under prefix m) as l. intros l.
    induction l as [| [k v] l IH]; intros Hnd; [by rewrite filter_nil |].
    cbn in Hnd. apply NoDup_cons in Hnd as [Hk Hnd]. rewrite filter_cons.
    destruct (decide _); [| by apply IH].
    cbn. apply NoDup_cons. split; [| by apply IH].
    intros Hin. apply Hk. apply list_elem_of_fmap in Hin as ([k' v'] & -> & Hin).
    apply list_elem_of_filter in Hin as [_ Hin].
    apply list_elem_of_fmap. by exists (k', v').
  - intros id v. rewrite Hperm, list_elem_of_filter, elem_of_records_under. done.
Qed.
End RecordsUnder.

(** X10. The mapping [getStatsForDate] returns lists an entity exactly when
    the store holds a record under the key of that date and entity, with
    that record, and lists no entity twice; the one exception is an entity
    named [__proto__], which is never listed. The same holds for
    [getPostStatsForDate]. *)
Theorem listing_matches_store :
  ∀ (d : string) (db : Redis),
    (NoDup (getStatsForDate d db).*1
     ∧ ∀ (id : string) (r : ProfileStats.t),
         (id, r) ∈ getStatsForDate d db
         ↔ id ≠ "__proto__" ∧ profile_record d id db = Some r)
    ∧ (NoDup (getPostStatsForDate d db).*1
       ∧ ∀ (id : string) (r : PostStats.t),
           (id, r) ∈ getPostStatsForDate d db
           ↔ id ≠ "__proto__" ∧ post_record d id db = Some r).
Proof.
  intros d db. unfold profile_record, post_record.
  rewrite getStatsForDate_enumerate, getPostStatsForDate_enumerate.
  split.
  - destruct (enumerate_spec (STATS_PREFIX +:+ d +:+ ":") (warmup_stats db)) as [Hnd Hin].
    split; [done |]. intros id r. by rewrite statsKey_prefix.
  - destruct (enumerate_spec (POST_STATS_PREFIX +:+ d +:+ ":") (post_stats db))
      as [Hnd Hin].
    split; [done |]. intros id r. by rewrite postStatsKey_prefix.
Qed.

(** ** From ingestion to the today query *)

(** X11. An accepted event shows in the next today query of its date: the
    profile of the event is listed with the record the event produced, and
    the stamped event is the first of the recent events. On the post stream
    the persona is listed with the counters of its record. An id equal to
    [__proto__] is the exception the enumeration makes. *)
Theorem submit_then_query :
  (∀ (c : Clock) (e : ActivityEvent.t) (db : Redis) (pid : string),
     ActivityEvent.profileId e = Some pid → pid ≠ "" → pid ≠ "__proto__" →
     truthy (ActivityEvent.action e) = true →
     (pid, update_stats e (default ProfileStats.zero (profile_record (today c) pid db)))
     ∈ DashboardData.profiles (ApiStats.data c (snd (ApiLog.POST c e db)))
     ∧ head (DashboardData.recentEvents (ApiStats.data c (snd (ApiLog.POST c e db))))
       = Some (ActivityEvent.set_receivedAt (now c) e))
  ∧ (∀ (c : Clock) (e : PostEvent.t) (db : Redis) (pid : string),
       PostEvent.personaId e = Some pid → pid ≠ "" → pid ≠ "__proto__" →
       includes ApiPostsLog.validActions (PostEvent.action e) = true →
       ApiPosts.persona_entry pid
         (update_post_stats e (default PostStats.zero (post_record (today c) pid db)))
       ∈ PostsData.personas (ApiPosts.data c (snd (ApiPostsLog.POST c e db)))
       ∧ head (PostsData.recentEvents (ApiPosts.data c (snd (ApiPostsLog.POST c e db))))
         = Some (PostEvent.set_receivedAt (now c) e)).
Proof.
  split.
  - intros c e db pid Hp Hpid Hproto Ha.
    rewrite ApiStats_data_unfold. cbn [DashboardData.profiles DashboardData.recentEvents].
    rewrite ApiLog_POST_cases. unfold valid_event.
    rewrite Hp, (truthy_Some _ Hpid), Ha. cbn [andb snd]. split.
    + unfold getTodayStats. rewrite getStatsForDate_enumerate.
      apply enumerate_spec. split; [done |].
      rewrite <- statsKey_prefix. by apply profile_record_addEvent.
    + by rewrite warmup_log_addEvent.
  - intros c e db pid Hp Hpid Hproto Ha.
    rewrite ApiPosts_data_unfold. cbn [PostsData.personas PostsData.recentEvents].
    rewrite ApiPostsLog_POST_cases. unfold valid_post_event.
    rewrite Hp, (truthy_Some _ Hpid), Ha, (includes_truthy _ Ha). cbn [andb snd]. split.
    + rewrite js_sort_perm.
      apply (list_elem_of_fmap_2 (λ kv, ApiPosts.persona_entry kv.1 kv.2) _ (pid, _)).
      unfold getTodayPostStats. rewrite getPostStatsForDate_enumerate.
      apply enumerate_spec. split; [done |].
      rewrite <- postStatsKey_prefix. by apply post_record_addPostEvent.
    + by rewrite post_log_addPostEvent.
Qed.

Lemma submit_then_query_witness :
  ActivityEvent.profileId (scenario_event "green" "like") = Some "green"
  ∧ "green" ≠ "" ∧ "green" ≠ "__proto__"
  ∧ truthy (ActivityEvent.action (scenario_event "green" "like")) = true
  ∧ ("green", ProfileStats.mk 1 0 0 0 0 0 (Some 1793577599000) None)
    ∈ DashboardData.profiles
        (ApiStats.data scenario_clock
           (snd (ApiLog.POST scenario_clock (scenario_event "green" "like") empty_redis))).
Proof.
  assert (H1 : "green" ≠ "") by discriminate.
  assert (H2 : "green" ≠ "__proto__") by discriminate.
  split; [reflexivity |]. split; [exact H1 |]. split; [exact H2 |].
  split; [reflexivity |].
  exact (proj1 (proj1 submit_then_query scenario_clock (scenario_event "green" "like")
                  empty_redis "green" eq_refl H1 H2 eq_refl)).
Defined.

Lemma Zsum_perm (l1 l2 : list Z) : l1 ≡ₚ l2 → Zsum l1 = Zsum l2.
Proof.
  unfold Zsum. induction 1 as [| x l1 l2 _ IH | x y l | l1 l2 l3 _ IH1 _ IH2];
    cbn [foldr]; lia.
Qed.

Lemma Zsum_entries (f : PostStats.t → Z) (g : PersonaPostStats.t → Z)
    (entries : list (string * PostStats.t)) :
  (∀ id r, g (ApiPosts.persona_entry id r) = f r) →
  Zsum (g <$> ((λ kv, ApiPosts.persona_entry kv.1 kv.2) <$> entries)) = sum_of f entries.
Proof.
  intros Hfg. unfold Zsum, sum_of. induction entries as [| [id r] entries IH]; [done |].
  cbn [fmap list_fmap foldr fst snd]. by rewrite Hfg, <- IH.
Qed.

(** X12. In the answer of the today query of the post stream the totals
    agree with the list: [totals.scheduled], [totals.posted] and
    [totals.failed] are the sums of the scheduled, posted and failed counts
    of the entries of [personas]. *)
Theorem post_totals_agree_with_personas :
  ∀ (c : Clock) (db : Redis),
    Totals.scheduled (PostsData.totals (ApiPosts.data c db))
    = Zsum (PersonaPostStats.scheduled <$> PostsData.personas (ApiPosts.data c db))
    ∧ Totals.posted (PostsData.totals (ApiPosts.data c db))
      = Zsum (PersonaPostStats.posted <$> PostsData.personas (ApiPosts.data c db))
    ∧ Totals.failed (PostsData.totals (ApiPosts.data c db))
      = Zsum (PersonaPostStats.failed <$> PostsData.personas (ApiPosts.data c db)).
Proof.
  intros c db. rewrite ApiPosts_data_unfold.
  cbn [PostsData.totals PostsData.personas Totals.scheduled Totals.posted Totals.failed].
  rewrite !(Zsum_perm _ _ (fmap_Permutation _ _ _ (js_sort_perm _ _))).
  rewrite (Zsum_entries PostStats.scheduled PersonaPostStats.scheduled _ (λ _ _, eq_refl)).
  rewrite (Zsum_entries PostStats.posted PersonaPostStats.posted _ (λ _ _, eq_refl)).
  by rewrite (Zsum_entries PostStats.failed PersonaPostStats.failed _ (λ _ _, eq_refl)).
Qed.

Lemma keys_none {V : Type} (prefix : string) (m : gmap string V) :
  (∀ id, m !! (prefix +:+ id) = None) → keys prefix m = [].
Proof.
  intros Hnone. destruct (keys prefix m) as [| k ks] eqn:Hks; [done |].
  assert (Hin : k ∈ keys prefix m) by (rewrite Hks; apply list_elem_of_here).
  apply elem_of_keys in Hin as [Hp [v Hv]].
  rewrite (starts_with_split _ _ Hp), Hnone in Hv. done.
Qed.

(** X13. For a date on which a stream has no counter record the today
    query lists no entity: the warmup answer has an empty [profiles], the
    post answer an empty [personas] and totals of zero. The recent events
    are still those of the log, whatever their date. *)
Theorem query_of_empty_date :
  (∀ (c : Clock) (db : Redis),
     (∀ id, profile_record (today c) id db = None) →
     ApiStats.data c db = DashboardData.mk (today c) [] (take 50 (warmup_log db)))
  ∧ (∀ (c : Clock) (db : Redis),
       (∀ id, post_record (today c) id db = None) →
       ApiPosts.data c db
       = PostsData.mk (today c) (Totals.mk 0 0 0) [] (take 50 (post_log db))).
Proof.
  split; intros c db Hnone.
  - rewrite ApiStats_data_unfold. unfold getTodayStats, getStatsForDate.
    rewrite keys_none; [done |]. intros id. rewrite <- statsKey_prefix. apply Hnone.
  - rewrite ApiPosts_data_unfold. unfold getTodayPostStats, getPostStatsForDate.
    rewrite keys_none; [done |]. intros id. rewrite <- postStatsKey_prefix. apply Hnone.
Qed.

Lemma query_of_empty_date_witness :
  (∀ id, post_record (today (mkClock 1793664000000 "2026-11-03")) id
           (addPostEvent scenario_clock (post_event "blue" "post_scheduled") empty_redis)
         = None)
  ∧ ApiPosts.data (mkClock 1793664000000 "2026-11-03")
      (addPostEvent scenario_clock (post_event "blue" "post_scheduled") empty_redis)
    = PostsData.mk "2026-11-03" (Totals.mk 0 0 0) []
        [PostEvent.set_receivedAt 1793577600000 (post_event "blue" "post_scheduled")].
Proof.
  assert (H : ∀ id, post_record (today (mkClock 1793664000000 "2026-11-03")) id
                      (addPostEvent scenario_clock (post_event "blue" "post_scheduled")
                                    empty_redis) = None).
  { intros id. rewrite addPostEvent_unfold. unfold post_record. cbn [post_stats today].
    rewrite lookup_insert_ne; [done |].
    intros Heq. apply postStatsKey_inj in Heq as [Hd _]; [discriminate Hd | reflexivity]. }
  split; [exact H |].
  rewrite (proj2 query_of_empty_date _ _ H). vm_compute. reflexivity.
Defined.

(** ** Display data of a persona *)

Lemma lookup_meta_unknown (id : string) :
  id ∉ (ApiPosts.PERSONA_META.*1) → id ∉ ApiPosts.inherited_names →
  ApiPosts.lookup_meta id = None.
Proof.
  intros Ht Hi. unfold ApiPosts.lookup_meta.
  assert (Hfind : List.find (λ kv : string * ApiPosts.Meta, String.eqb kv.1 id)
                    ApiPosts.PERSONA_META = None).
  { revert Ht. generalize ApiPosts.PERSONA_META as l.
    induction l as [| [k m] l IH]; intros Ht; [done |].
    cbn [List.find fst]. cbn in Ht. apply not_elem_of_cons in Ht as [Hk Ht].
    destruct (String.eqb_spec k id) as [-> | _]; [done | by apply IH]. }
  rewrite Hfind.
  assert (Hex : existsb (String.eqb id) ApiPosts.inherited_names = false).
  { revert Hi. generalize ApiPosts.inherited_names as l.
    induction l as [| k l IH]; intros Hi; [done |].
    cbn [existsb]. apply not_elem_of_cons in Hi as [Hk Hi].
    destruct (String.eqb_spec id k) as [-> | _]; [done | by apply IH]. }
  by rewrite Hex.
Qed.

(** X14. The summary of a persona in the post query takes its counters and
    [lastActivity] from the record. For a persona of the reference table
    the display name and the emoji are those of the table, and the handle
    is the one of the record when it has one, else the one of the table. A
    persona that is neither in the table nor the name of an inherited
    member is shown under its id, with the placeholder text of the route as
    emoji and the handle of the record or else [@] followed by the id. *)
Theorem persona_summary :
  (∀ (id : string) (r : PostStats.t),
     PersonaPostStats.personaId (ApiPosts.persona_entry id r) = id
     ∧ PersonaPostStats.scheduled (ApiPosts.persona_entry id r) = PostStats.scheduled r
     ∧ PersonaPostStats.posted (ApiPosts.persona_entry id r) = PostStats.posted r
     ∧ PersonaPostStats.failed (ApiPosts.persona_entry id r) = PostStats.failed r
     ∧ PersonaPostStats.lastActivity (ApiPosts.persona_entry id r)
       = PostStats.lastActivity r)
  ∧ (∀ (id : string) (meta : ApiPosts.Meta) (r : PostStats.t),
       In (id, meta) ApiPosts.PERSONA_META →
       PersonaPostStats.displayName (ApiPosts.persona_entry id r)
       = ApiPosts.displayName meta
       ∧ PersonaPostStats.emoji (ApiPosts.persona_entry id r) = ApiPosts.emoji meta
       ∧ PersonaPostStats.handle (ApiPosts.persona_entry id r)
         = (if truthy (PostStats.handle r) then PostStats.handle r
            else ApiPosts.handle meta))
  ∧ (∀ (id : string) (r : PostStats.t),
       id ∉ (ApiPosts.PERSONA_META.*1) → id ∉ ApiPosts.inherited_names →
       PersonaPostStats.displayName (ApiPosts.persona_entry id r) = Some id
       ∧ PersonaPostStats.emoji (ApiPosts.persona_entry id r) = Some "â€¢"
       ∧ PersonaPostStats.handle (ApiPosts.persona_entry id r)
         = Some (or_else (PostStats.handle r) ("@" +:+ id))).
Proof.
  split; [| split].
  - intros id r. by repeat split.
  - intros id meta r Hin. unfold ApiPosts.PERSONA_META in Hin. cbn [In] in Hin.
    repeat (destruct Hin as [Hin | Hin]; [injection Hin as <- <-; by repeat split |]).
    destruct Hin.
  - intros id r Ht Hi. unfold ApiPosts.persona_entry.
    rewrite (lookup_meta_unknown id Ht Hi).
    cbn [default PersonaPostStats.displayName PersonaPostStats.emoji
         PersonaPostStats.handle ApiPosts.handle ApiPosts.displayName ApiPosts.emoji].
    split; [done |]. split; [done |].
    unfold ApiPosts.first_truthy, or_else, truthy.
    destruct (PostStats.handle r) as [h |]; [| done].
    by destruct (String.eqb h "").
Qed.

Lemma persona_summary_witness :
  ("teal" ∉ (ApiPosts.PERSONA_META.*1))
  ∧ ("teal" ∉ ApiPosts.inherited_names)
  ∧ PersonaPostStats.displayName (ApiPosts.persona_entry "teal" PostStats.zero)
    = Some "teal"
  ∧ PersonaPostStats.emoji (ApiPosts.persona_entry "teal" PostStats.zero)
    = Some "â€¢"
  ∧ PersonaPostStats.handle (ApiPosts.persona_entry "teal" PostStats.zero)
    = Some "@teal".
Proof.
  assert (H1 : "teal" ∉ (ApiPosts.PERSONA_META.*1)).
  { cbn. rewrite !not_elem_of_cons. repeat split; try discriminate.
    apply not_elem_of_nil. }
  assert (H2 : "teal" ∉ ApiPosts.inherited_names).
  { unfold ApiPosts.inherited_names. rewrite !not_elem_of_cons.
    repeat split; try discriminate. apply not_elem_of_nil. }
  split; [exact H1 |]. split; [exact H2 |].
  destruct (proj2 (proj2 persona_summary) "teal" PostStats.zero H1 H2) as (Hd & He & Hh).
  split; [exact Hd |]. split; [exact He | exact Hh].
Defined.

(** ** The scope of the clear *)

Lemma lookup_del_keys {V : Type} (prefix key : string) (m : gmap string V) :
  del (keys prefix m) m !! key = if starts_with prefix key then None else m !! key.
Proof.
  rewrite lookup_del. destruct (decide (key ∈ keys prefix m)) as [Hin | Hnin].
  - apply elem_of_keys in Hin as [-> _]. done.
  - destruct (starts_with prefix key) eqn:Hp; [| done].
    destruct (m !! key) as [v |] eqn:Hv; [| done].
    exfalso. apply Hnin. apply elem_of_keys. by eauto.
Qed.

Lemma other_date_not_under (S d d' rest : string) :
  String.length d = String.length d' → d ≠ d' →
  starts_with (S +:+ d' +:+ ":") (S +:+ d +:+ ":" +:+ rest) = false.
Proof.
  intros Hlen Hne. apply not_true_is_false. intros Hp.
  apply starts_with_split in Hp. rewrite !append_assoc in Hp.
  apply (inj (String.app S)) in Hp. symmetry in Hp.
  by apply append_inj_length in Hp as [-> _].
Qed.

(** X15. The clear of a stream removes from the counter records exactly
    the keys that start with the prefix of the stream and of the current
    date, and keeps every other key with its record; so the records of
    another date, written with as many characters, are after the clear
    what they were before. *)
Theorem clear_removes_only_today :
  (∀ (c : Clock) (db : Redis) (key : string),
     warmup_stats (snd (ApiClear.POST c db)) !! key
     = if starts_with ("warmup:stats:" +:+ today c +:+ ":") key then None
       else warmup_stats db !! key)
  ∧ (∀ (c : Clock) (db : Redis) (key : string),
       post_stats (snd (ApiPostsClear.POST c db)) !! key
       = if starts_with ("posts:stats:" +:+ today c +:+ ":") key then None
         else post_stats db !! key)
  ∧ (∀ (c : Clock) (db : Redis) (d id : string),
       String.length d = String.length (today c) → d ≠ today c →
       profile_record d id (snd (ApiClear.POST c db)) = profile_record d id db
       ∧ post_record d id (snd (ApiPostsClear.POST c db)) = post_record d id db).
Proof.
  split; [| split].
  - intros c db key. rewrite warmup_stats_clear. apply lookup_del_keys.
  - intros c db key. rewrite post_stats_clear. apply lookup_del_keys.
  - intros c db d id Hlen Hne. unfold profile_record, post_record.
    rewrite warmup_stats_clear, post_stats_clear, !lookup_del_keys.
    unfold statsKey, postStatsKey. cbn [template].
    change "warmup:stats:" with STATS_PREFIX. change "posts:stats:" with POST_STATS_PREFIX.
    by rewrite !other_date_not_under.
Qed.

Lemma clear_removes_only_today_witness :
  String.length "2026-11-01" = String.length (today scenario_clock)
  ∧ "2026-11-01" ≠ today scenario_clock
  ∧ profile_record "2026-11-01" "green"
      (snd (ApiClear.POST scenario_clock
              (addEvent (mkClock 1793491200000 "2026-11-01")
                        (scenario_event "green" "like") empty_redis)))
    = Some (ProfileStats.mk 1 0 0 0 0 0 (Some 1793577599000) None).
Proof.
  assert (H1 : String.length "2026-11-01" = String.length (today scenario_clock))
    by reflexivity.
  assert (H2 : "2026-11-01" ≠ today scenario_clock) by discriminate.
  split; [exact H1 |]. split; [exact H2 |].
  rewrite (proj1 (proj2 (proj2 clear_removes_only_today) scenario_clock _
                    "2026-11-01" "green" H1 H2)).
  vm_compute. reflexivity.
Defined.

(** ** The page of the warmup stream *)

Lemma getTotals_fold (l : list (string * ProfileStats.t)) (acc : Page.Totals) :
  foldl (λ acc p,
           Page.mkTotals (Page.likes acc + ProfileStats.likes p)
                         (Page.bookmarks acc + ProfileStats.bookmarks p)
                         (Page.sessions acc + ProfileStats.sessions p)
                         (Page.videos acc + ProfileStats.videos p)
                         (Page.searches acc + ProfileStats.searches p)
                         (Page.explores acc + ProfileStats.explores p))
        acc (map snd l)
  = Page.mkTotals (Page.likes acc + sum_of ProfileStats.likes l)
                  (Page.bookmarks acc + sum_of ProfileStats.bookmarks l)
                  (Page.sessions acc + sum_of ProfileStats.sessions l)
                  (Page.videos acc + sum_of ProfileStats.videos l)
                  (Page.searches acc + sum_of ProfileStats.searches l)
                  (Page.explores acc + sum_of ProfileStats.explores l).
Proof.
  revert acc. induction l as [| [id p] l IH]; intros acc.
  - destruct acc. cbn. by rewrite !Z.add_0_r.
  - cbn [map foldl snd]. rewrite IH. unfold sum_of.
    cbn [foldr snd Page.likes Page.bookmarks Page.sessions Page.videos
         Page.searches Page.explores].
    f_equal; lia.
Qed.

(** X16. The totals the warmup page shows are computed by the page from
    the answer of the today query: each is the sum of that counter over the
    profiles the query lists, that is over every profile with a record for
    the date, an id [__proto__] apart. Before the first answer all totals
    are zero. *)
Theorem page_totals :
  (∀ (c : Clock) (db : Redis),
     Page.getTotals (Some (ApiStats.data c db))
     = Page.mkTotals (sum_of ProfileStats.likes (listed_profiles (today c) db))
                     (sum_of ProfileStats.bookmarks (listed_profiles (today c) db))
                     (sum_of ProfileStats.sessions (listed_profiles (today c) db))
                     (sum_of ProfileStats.videos (listed_profiles (today c) db))
                     (sum_of ProfileStats.searches (listed_profiles (today c) db))
                     (sum_of ProfileStats.explores (listed_profiles (today c) db)))
  ∧ Page.getTotals None = Page.mkTotals 0 0 0 0 0 0.
Proof.
  split; [| done]. intros c db.
  assert (Hperm : getTodayStats c db ≡ₚ listed_profiles (today c) db).
  { unfold getTodayStats. rewrite getStatsForDate_enumerate. apply enumerate_perm. }
  unfold Page.getTotals. rewrite ApiStats_data_unfold. cbn [DashboardData.profiles].
  rewrite getTotals_fold.
  cbn [Page.likes Page.bookmarks Page.sessions Page.videos Page.searches Page.explores].
  rewrite !Z.add_0_l. by rewrite !(sum_of_perm _ _ _ Hperm).
Qed.

Lemma by_lastActivity_key (a b : string * ProfileStats.t) :
  Page.by_lastActivity a b = last_seen b - last_seen a.
Proof. reflexivity. Qed.

(** X17. The warmup page draws the profile cards by recency: the entries
    are those of the answer, each once, in descending order of
    [lastActivity] (a record without one counting as 0), and profiles with
    the same [lastActivity] keep the order of the answer. Before the first
    answer there is no card. *)
Theorem profile_cards_by_recency :
  (∀ d : DashboardData.t,
     descending (last_seen <$> Page.profile_cards (Some d))
     ∧ Page.profile_cards (Some d) ≡ₚ DashboardData.profiles d
     ∧ ∀ t : Z,
         filter (λ kv, last_seen kv = t) (Page.profile_cards (Some d))
         = filter (λ kv, last_seen kv = t) (DashboardData.profiles d))
  ∧ Page.profile_cards None = [].
Proof.
  split; [| done]. intros d. unfold Page.profile_cards. split; [| split].
  - apply (StronglySorted_fmap last_seen (before last_seen)); [by unfold before |].
    apply (js_sort_sorted last_seen), by_lastActivity_key.
  - apply js_sort_perm.
  - intros t. apply (js_sort_stable last_seen), by_lastActivity_key.
Qed.

(** ** The log of the post stream *)

Lemma getRecentPostEvents_take (limit : Z) (db : Redis) :
  1 ≤ limit → getRecentPostEvents limit db = take (Z.to_nat limit) (post_log db).
Proof.
  intros H. unfold getRecentPostEvents, lrange. fold (post_log db).
  by apply range_from_head.
Qed.

Lemma submit_all_posts_log (evs : list (Clock * PostEvent.t)) (db : Redis) :
  (length (post_log db) ≤ 200)%nat →
  post_log (submit_all_posts evs db)
  = take 200 (reverse (stamped_posts (filter (λ ce, valid_post_event ce.2 = true) evs))
              ++ post_log db).
Proof.
  revert db. induction evs as [| ce evs IH]; intros db Hlen.
  - cbn. by rewrite take_ge.
  - unfold submit_all_posts in *. cbn [foldl].
    rewrite ApiPostsLog_POST_cases, filter_cons.
    destruct (valid_post_event ce.2) eqn:Hv; cbn [snd].
    + rewrite decide_True by done. rewrite IH.
      * rewrite post_log_addPostEvent. change (Z.to_nat MAX_POST_EVENTS) with 200%nat.
        rewrite take_app_take by done.
        unfold stamped_posts. rewrite fmap_cons, reverse_cons, <- app_assoc. done.
      * rewrite post_log_addPostEvent, length_take. unfold MAX_POST_EVENTS. lia.
    + rewrite decide_False by done. by apply IH.
Qed.

(** X18. After a burst of post events the log of the post stream holds,
    newest first, the accepted events of the burst in reverse order of
    arrival, each stamped with the clock of its request, followed by the
    entries it held before, the whole cut to 200 entries; an event with a
    missing id or an action outside the three post actions leaves no
    entry. An accepted event is found by [getRecentPostEvents(limit)] at
    the position that equals the number of events accepted after it, while
    that number is below the limit and below 200. *)
Theorem post_log_after_burst :
  (∀ (evs : list (Clock * PostEvent.t)) (db : Redis),
     (length (post_log db) ≤ 200)%nat →
     post_log (submit_all_posts evs db)
     = take 200 (reverse (stamped_posts
                            (filter (λ ce, valid_post_event ce.2 = true) evs))
                 ++ post_log db))
  ∧ (∀ (c : Clock) (e : PostEvent.t) (later : list (Clock * PostEvent.t))
       (db : Redis) (limit : Z),
       valid_post_event e = true →
       Forall (λ ce, valid_post_event ce.2 = true) later →
       Z.of_nat (length later) < limit →
       Z.of_nat (length later) < 200 →
       getRecentPostEvents limit
         (submit_all_posts later (snd (ApiPostsLog.POST c e db))) !! length later
       = Some (PostEvent.set_receivedAt (now c) e)).
Proof.
  split; [apply submit_all_posts_log |].
  intros c e later db limit Hv Hall Hlim Hcap.
  rewrite getRecentPostEvents_take by lia.
  rewrite lookup_take_lt by lia.
  rewrite submit_all_posts_log.
  - rewrite lookup_take_lt by lia.
    assert (Hf : filter (λ ce : Clock * PostEvent.t, valid_post_event ce.2 = true) later
                 = later).
    { clear Hlim Hcap. induction Hall as [| ce l Hce _ IH]; [done |].
      by rewrite filter_cons_True, IH. }
    rewrite Hf, ApiPostsLog_POST_cases, Hv. cbn [snd]. rewrite post_log_addPostEvent.
    change (Z.to_nat MAX_POST_EVENTS) with 200%nat.
    rewrite lookup_app_r; unfold stamped_posts; rewrite length_reverse, length_fmap;
      [| lia].
    by rewrite Nat.sub_diag.
  - rewrite ApiPostsLog_POST_cases, Hv. cbn [snd].
    rewrite post_log_addPostEvent, length_take. unfold MAX_POST_EVENTS. lia.
Qed.

Lemma post_log_after_burst_witness :
  (length (post_log empty_redis) ≤ 200)%nat
  ∧ post_log
      (submit_all_posts
         [(mkClock 10 "2026-11-02", post_event "blue" "post_scheduled");
          (mkClock 20 "2026-11-02", post_event "blue" "post_cancelled");
          (mkClock 30 "2026-11-02", post_event "blue" "post_published")]
         empty_redis)
    = [PostEvent.set_receivedAt 30 (post_event "blue" "post_published");
       PostEvent.set_receivedAt 10 (post_event "blue" "post_scheduled")].
Proof.
  assert (H : (length (post_log empty_redis) ≤ 200)%nat) by (vm_compute; lia).
  split; [exact H |].
  rewrite (proj1 post_log_after_burst _ empty_redis H). vm_compute. reflexivity.
Defined.

(** ** Starting again after a clear *)

Lemma starts_with_statsKey (d id : string) :
  starts_with ("warmup:stats:" +:+ d +:+ ":") (statsKey d (Some id)) = true.
Proof. rewrite statsKey_prefix. apply starts_with_app. Qed.

Lemma starts_with_postStatsKey (d id : string) :
  starts_with ("posts:stats:" +:+ d +:+ ":") (postStatsKey d (Some id)) = true.
Proof. rewrite postStatsKey_prefix. apply starts_with_app. Qed.

(** X19. The first accepted event after a clear of the same date starts
    the entity again from the zeroed record, whatever its counters were
    before the clear, and is the only entry of the log; on both streams. *)
Theorem clear_then_submit :
  (∀ (c c' : Clock) (e : ActivityEvent.t) (db : Redis) (pid : string),
     today c' = today c → ActivityEvent.profileId e = Some pid →
     valid_event e = true →
     profile_record (today c) pid (snd (ApiLog.POST c' e (snd (ApiClear.POST c db))))
     = Some (update_stats e ProfileStats.zero)
     ∧ warmup_log (snd (ApiLog.POST c' e (snd (ApiClear.POST c db))))
       = [ActivityEvent.set_receivedAt (now c') e])
  ∧ (∀ (c c' : Clock) (e : PostEvent.t) (db : Redis) (pid : string),
       today c' = today c → PostEvent.personaId e = Some pid →
       valid_post_event e = true →
       post_record (today c) pid
         (snd (ApiPostsLog.POST c' e (snd (ApiPostsClear.POST c db))))
       = Some (update_post_stats e PostStats.zero)
       ∧ post_log (snd (ApiPostsLog.POST c' e (snd (ApiPostsClear.POST c db))))
         = [PostEvent.set_receivedAt (now c') e]).
Proof.
  split.
  - intros c c' e db pid Hd Hp Hv. rewrite ApiLog_POST_cases, Hv. cbn [snd]. split.
    + rewrite (profile_record_addEvent c' e _ (today c) pid Hd Hp).
      unfold profile_record. rewrite warmup_stats_clear, lookup_del_keys.
      by rewrite starts_with_statsKey.
    + by rewrite warmup_log_addEvent, warmup_log_clear.
  - intros c c' e db pid Hd Hp Hv. rewrite ApiPostsLog_POST_cases, Hv. cbn [snd]. split.
    + rewrite (post_record_addPostEvent c' e _ (today c) pid Hd Hp).
      unfold post_record. rewrite post_stats_clear, lookup_del_keys.
      by rewrite starts_with_postStatsKey.
    + by rewrite post_log_addPostEvent, post_log_clear.
Qed.

Lemma clear_then_submit_witness :
  today scenario_clock = today scenario_clock
  ∧ ActivityEvent.profileId (scenario_event "2" "like") = Some "2"
  ∧ valid_event (scenario_event "2" "like") = true
  ∧ profile_record "2026-11-02" "2"
      (snd (ApiLog.POST scenario_clock (scenario_event "2" "like")
              (snd (ApiClear.POST scenario_clock two_profiles))))
    = Some (ProfileStats.mk 1 0 0 0 0 0 (Some 1793577599000) None).
Proof.
  split; [reflexivity |]. split; [reflexivity |]. split; [reflexivity |].
  exact (proj1 (proj1 clear_then_submit scenario_clock scenario_clock
                  (scenario_event "2" "like") two_profiles "2"
                  eq_refl eq_refl eq_refl)).
Defined.

(** ** The documents of the today queries *)

(** C6, as stated, fails on the warmup stream: the document of its today
    query has no [totals] member. *)
Lemma warmup_query_has_no_totals :
  json_field "totals" (body (ApiStats.GET scenario_clock two_profiles)) = None.
Proof. vm_compute. reflexivity. Qed.

Lemma filter_all {A : Type} (P : A → Prop) `{∀ x, Decision (P x)} (l : list A) :
  Forall P l → filter P l = l.
Proof.
  induction 1 as [| x l Hx _ IH]; [done |]. by rewrite filter_cons_True, IH.
Qed.

Lemma records_without_proto {V : Type} (prefix : string) (m : gmap string V) :
  m !! (prefix +:+ "__proto__") = None →
  filter (λ kv, kv.1 ≠ "__proto__") (records_under prefix m) = records_under prefix m.
Proof.
  intros Hnone. apply filter_all. apply Forall_forall. intros [id v] Hin.
  apply elem_of_records_under in Hin. cbn. intros ->. congruence.
Qed.

(** C6, amended. The document of the today query of the post stream has
    four members: [date], the current date; [totals], with the scheduled,
    posted and failed totals of the answer; [personas], the summaries; and
    [recentEvents], the 50 newest entries of the log, newest first. In a
    store with no record under the reserved name [__proto__] for the date,
    the summaries are those of all entities with a record for the date,
    one each, and each total is the sum of that counter across all of
    them. The document of the today query of the warmup stream has the
    members [date], [profiles] (the records by id, in such a store those
    of all entities with a record for the date) and [recentEvents] (the
    50 newest entries, newest first), and no [totals]. *)
Theorem query_documents :
  ∀ (c : Clock) (db : Redis),
    (status (ApiPosts.GET c db) = 200
     ∧ json_field "date" (body (ApiPosts.GET c db)) = Some (JStr (today c))
     ∧ json_field "totals" (body (ApiPosts.GET c db))
       = Some (JObj [("scheduled",
                      JNum (Totals.scheduled (PostsData.totals (ApiPosts.data c db))));
                     ("posted",
                      JNum (Totals.posted (PostsData.totals (ApiPosts.data c db))));
                     ("failed",
                      JNum (Totals.failed (PostsData.totals (ApiPosts.data c db))))])
     ∧ json_field "personas" (body (ApiPosts.GET c db))
       = Some (JArr (map PersonaPostStats.to_json
                         (PostsData.personas (ApiPosts.data c db))))
     ∧ json_field "recentEvents" (body (ApiPosts.GET c db))
       = Some (JArr (map PostEvent_json (take 50 (post_log db))))
     ∧ (post_record (today c) "__proto__" db = None →
        PostsData.totals (ApiPosts.data c db)
        = Totals.mk
            (sum_of PostStats.scheduled
               (records_under (POST_STATS_PREFIX +:+ today c +:+ ":") (post_stats db)))
            (sum_of PostStats.posted
               (records_under (POST_STATS_PREFIX +:+ today c +:+ ":") (post_stats db)))
            (sum_of PostStats.failed
               (records_under (POST_STATS_PREFIX +:+ today c +:+ ":") (post_stats db)))
        ∧ PostsData.personas (ApiPosts.data c db)
          ≡ₚ (λ kv, ApiPosts.persona_entry kv.1 kv.2)
               <$> records_under (POST_STATS_PREFIX +:+ today c +:+ ":")
                                 (post_stats db)))
    ∧ (status (ApiStats.GET c db) = 200
       ∧ json_field "date" (body (ApiStats.GET c db)) = Some (JStr (today c))
       ∧ json_field "profiles" (body (ApiStats.GET c db))
         = Some (JObj (map (λ kv, (kv.1, ProfileStats_json kv.2))
                           (getTodayStats c db)))
       ∧ json_field "recentEvents" (body (ApiStats.GET c db))
         = Some (JArr (map ActivityEvent_json (take 50 (warmup_log db))))
       ∧ json_field "totals" (body (ApiStats.GET c db)) = None
       ∧ (profile_record (today c) "__proto__" db = None →
          getTodayStats c db
          ≡ₚ records_under (STATS_PREFIX +:+ today c +:+ ":") (warmup_stats db))).
Proof.
  intros c db.
  unfold ApiPosts.GET, ApiStats.GET.
  rewrite ApiPosts_data_unfold, ApiStats_data_unfold.
  split.
  - do 5 (split; [done |]). intros Hnone.
    unfold post_record in Hnone. rewrite postStatsKey_prefix in Hnone.
    assert (Hposts : getTodayPostStats c db
                     ≡ₚ records_under (POST_STATS_PREFIX +:+ today c +:+ ":")
                                      (post_stats db)).
    { unfold getTodayPostStats. rewrite getPostStatsForDate_enumerate, enumerate_perm.
      by rewrite records_without_proto. }
    cbn [PostsData.totals PostsData.personas]. split.
    + by rewrite !(sum_of_perm _ _ _ Hposts).
    + by rewrite js_sort_perm, Hposts.
  - do 5 (split; [done |]). intros Hnone.
    unfold profile_record in Hnone. rewrite statsKey_prefix in Hnone.
    unfold getTodayStats. rewrite getStatsForDate_enumerate, enumerate_perm.
    by rewrite records_without_proto.
Qed.

(** A day of the post stream: blue scheduled and published, red failed. *)
Lemma query_documents_witness :
  post_record (today scenario_clock) "__proto__"
    (submit_all_posts [(scenario_clock, post_event "blue" "post_scheduled");
                       (scenario_clock, post_event "blue" "post_published");
                       (scenario_clock, post_event "red" "post_failed")] empty_redis)
  = None
  ∧ PostsData.totals
      (ApiPosts.data scenario_clock
         (submit_all_posts [(scenario_clock, post_event "blue" "post_scheduled");
                            (scenario_clock, post_event "blue" "post_published");
                            (scenario_clock, post_event "red" "post_failed")]
                           empty_redis))
    = Totals.mk 0 1 1.
Proof.
  assert (H : post_record (today scenario_clock) "__proto__"
                (submit_all_posts
                   [(scenario_clock, post_event "blue" "post_scheduled");
                    (scenario_clock, post_event "blue" "post_published");
                    (scenario_clock, post_event "red" "post_failed")] empty_redis)
              = None) by (vm_compute; reflexivity).
  split; [exact H |].
  destruct (query_documents scenario_clock
              (submit_all_posts
                 [(scenario_clock, post_event "blue" "post_scheduled");
                  (scenario_clock, post_event "blue" "post_published");
                  (scenario_clock, post_event "red" "post_failed")] empty_redis))
    as [(_ & _ & _ & _ & _ & Hall) _].
  rewrite (proj1 (Hall H)). vm_compute. reflexivity.
Defined.
